(** * cryptosia-backend: the prediction service of [main.py]

    A shallow embedding of the four data endpoints of [main.py]
    ([predict], [available_coins], [debug_prices], [get_signal]) and the
    properties of the specification that concern them.

    - Floating point numbers are IEEE 754 binary64 values, given by the
      [SpecFloat] specification of the standard library (precision 53,
      [emax] 1024); Python's [float] and NumPy's [float64] are both this
      format.
    - Python values read by [json.load] are the inductive [json].
    - A raised exception is the [Raise] branch of [result]; calls that
      leave the process (opening a file, loading an artifact, listing a
      directory) are recorded in a trace of [event]s.
    - The file system, the pickled scaler and the Keras model are not part
      of [main.py]; they are the fields of a [World].  The scaler has the
      interface of scikit-learn (two-dimensional float64 arrays in and
      out), the model that of Keras (an array in, an array out).
    - The text of [str(e)] depends on the Python version; it is a
      parameter [str_exn] of the endpoints.

    The second part of the file covers [local_coin_data] and the proxy
    endpoints, with the network, the standard output and the rendering of
    [JSONResponse] as further parameters.  Only [home], which returns a
    constant, is left out. *)

From Stdlib Require Import ZArith List String Ascii Bool Lia DecimalString.
From Stdlib Require Import Floats.SpecFloat.
Import ListNotations.

#[local] Set Warnings "-register-all".

Open Scope Z_scope.

(** ** Binary64 arithmetic *)

Module F64.

Definition prec : Z := 53.
Definition emax : Z := 1024.

Definition float : Type := spec_float.

Definition zero : float := S754_zero false.

(** The float nearest to an integer (ties to even); an integer beyond the
    range of the format gives an infinity. *)
Definition of_Z (z : Z) : float := binary_normalize prec emax z 0 false.

Definition one : float := of_Z 1.

Definition add : float -> float -> float := SFadd prec emax.
Definition sub : float -> float -> float := SFsub prec emax.
Definition mul : float -> float -> float := SFmul prec emax.
Definition div : float -> float -> float := SFdiv prec emax.
Definition abs : float -> float := SFabs.

Definition ltb : float -> float -> bool := SFltb.
Definition leb : float -> float -> bool := SFleb.
Definition eqb : float -> float -> bool := SFeqb.
(** [x > y] *)
Definition gtb (x y : float) : bool := SFltb y x.

Definition is_nan (x : float) : bool :=
  match x with S754_nan => true | _ => false end.

Definition is_zero (x : float) : bool :=
  match x with S754_zero _ => true | _ => false end.

Definition is_infinite (x : float) : bool :=
  match x with S754_infinity _ => true | _ => false end.

(** A finite number strictly above zero. *)
Definition is_pos_finite (x : float) : bool :=
  match x with S754_finite false _ _ => true | _ => false end.

(** A finite number strictly below zero. *)
Definition is_neg_finite (x : float) : bool :=
  match x with S754_finite true _ _ => true | _ => false end.

(** [x] is a zero, a finite number or an infinity whose sign bit is [s]. *)
Definition signed (s : bool) (x : float) : Prop :=
  match x with
  | S754_zero s' | S754_infinity s' | S754_finite s' _ _ => s' = s
  | S754_nan => False
  end.

(** The integer nearest to [a / b], ties to the even one
    ([0 <= a], [0 < b]). *)
Definition round_half_even_div (a b : Z) : Z :=
  let q := a / b in
  match 2 * (a mod b) ?= b with
  | Lt => q
  | Gt => q + 1
  | Eq => if Z.even q then q else q + 1
  end.

(** The float nearest to the fraction [k / n], with sign bit [s]. *)
Definition of_ratio (s : bool) (k n : positive) : float :=
  let '(mz, ez, lz) := SFdiv_core_binary prec emax (Zpos k) 0 (Zpos n) 0 in
  binary_round_aux prec emax s mz ez lz.

(** Python's [round(x, ndigits)] on a float, for [0 <= ndigits]: the exact
    value of [x] is rounded to [ndigits] decimal places, ties to even, and
    the decimal result is converted back to the nearest float.  The sign
    is kept ([round(-0.00001, 4)] is [-0.0]); infinities and NaN round to
    themselves. *)
Definition py_round (x : float) (ndigits : nat) : float :=
  match x with
  | S754_finite s m e =>
      let N := 10 ^ Z.of_nat ndigits in
      let k := match e with
               | Zneg p => round_half_even_div (Zpos m * N) (2 ^ Zpos p)
               | _ => Zpos m * 2 ^ e * N
               end in
      match k with
      | Zpos kp => of_ratio s kp (Z.to_pos N)
      | _ => S754_zero s
      end
  | _ => x
  end.

(** The float nearest to [n / d], for integers that are floats themselves:
    [dec 5 100] is the float written [0.05]. *)
Definition dec (n d : Z) : float := div (of_Z n) (of_Z d).

End F64.

(** ** Python values and exceptions *)

Module Py.

(** The exception classes that the modelled operations raise.  [External]
    stands for an exception raised outside [main.py]: by [open], by the
    JSON decoder, by [joblib], Keras, the scaler or the model. *)
Inductive exn : Type :=
| KeyError
| TypeError
| IndexError
| ValueError
| OverflowError
| External (what : string).

Inductive result (A : Type) : Type :=
| Ok (a : A)
| Raise (e : exn).
Arguments Ok {A} a.
Arguments Raise {A} e.

Definition rbind {A B : Type} (r : result A) (k : A -> result B) : result B :=
  match r with
  | Ok a => k a
  | Raise e => Raise e
  end.

(** A list comprehension whose element expression may raise. *)
Fixpoint rmap {A B : Type} (f : A -> result B) (l : list A) : result (list B) :=
  match l with
  | [] => Ok []
  | a :: l' =>
      rbind (f a) (fun b => rbind (rmap f l') (fun bs => Ok (b :: bs)))
  end.

(** What [json.load] returns, and what an endpoint hands to the framework
    to be serialised.  A dict is the list of its items, in order. *)
Inductive json : Type :=
| JNull
| JBool (b : bool)
| JInt (z : Z)
| JFloat (f : F64.float)
| JStr (s : string)
| JList (l : list json)
| JDict (items : list (string * json)).

Fixpoint lookup (key : string) (items : list (string * json)) : option json :=
  match items with
  | [] => None
  | (k, v) :: rest => if String.eqb k key then Some v else lookup key rest
  end.

(** The last [n] elements: [l[-n:]] for [0 < n]. *)
Definition lastn {A : Type} (n : nat) (l : list A) : list A :=
  skipn (List.length l - n) l.

Definition chars (s : string) : list json :=
  map (fun c => JStr (String c EmptyString)) (list_ascii_of_string s).

(** [len(v)] *)
Definition len (v : json) : result Z :=
  match v with
  | JList l => Ok (Z.of_nat (List.length l))
  | JDict items => Ok (Z.of_nat (List.length items))
  | JStr s => Ok (Z.of_nat (String.length s))
  | _ => Raise TypeError
  end.

(** [for entry in v]: the elements of a list, the keys of a dict, the
    characters of a string. *)
Definition iter (v : json) : result (list json) :=
  match v with
  | JList l => Ok l
  | JDict items => Ok (map (fun kv => JStr (fst kv)) items)
  | JStr s => Ok (chars s)
  | _ => Raise TypeError
  end.

(** [for entry in v[-n:]].  A dict cannot be sliced (the failure is a
    [TypeError] up to Python 3.11 and a [KeyError] from 3.12 on). *)
Definition iter_last (n : nat) (v : json) : result (list json) :=
  match v with
  | JList l => Ok (lastn n l)
  | JStr s => Ok (lastn n (chars s))
  | _ => Raise TypeError
  end.

(** [v[-k]] for [0 < k]; out of range is an [IndexError], and a dict has no
    integer key after [json.load]. *)
Definition index_from_end (k : nat) (v : json) : result json :=
  match v with
  | JList l =>
      match nth_error (rev l) (k - 1) with
      | Some x => Ok x
      | None => Raise IndexError
      end
  | JStr s =>
      match nth_error (rev (chars s)) (k - 1) with
      | Some x => Ok x
      | None => Raise IndexError
      end
  | JDict _ => Raise KeyError
  | _ => Raise TypeError
  end.

(** [v[key]] for a string key. *)
Definition getitem (v : json) (key : string) : result json :=
  match v with
  | JDict items =>
      match lookup key items with
      | Some x => Ok x
      | None => Raise KeyError
      end
  | _ => Raise TypeError
  end.

(** [isinstance(v, dict) and key in v] *)
Definition is_dict_with (key : string) (v : json) : bool :=
  match v with
  | JDict items =>
      match lookup key items with Some _ => true | None => false end
  | _ => false
  end.

(** Python numbers: [int] (unbounded) and [float]. *)
Inductive num : Type :=
| Int (z : Z)
| Float (f : F64.float).

(** The numeric reading of a value; [bool] is a subclass of [int]. *)
Definition as_num (v : json) : option num :=
  match v with
  | JInt z => Some (Int z)
  | JFloat f => Some (Float f)
  | JBool b => Some (Int (if b then 1 else 0))
  | _ => None
  end.

Definition json_of_num (n : num) : json :=
  match n with
  | Int z => JInt z
  | Float f => JFloat f
  end.

(** [float(z)] for an [int]: an [OverflowError] when [z] is too large. *)
Definition float_of_int (z : Z) : result F64.float :=
  let f := F64.of_Z z in
  if F64.is_infinite f then Raise OverflowError else Ok f.

Definition to_float (n : num) : result F64.float :=
  match n with
  | Int z => float_of_int z
  | Float f => Ok f
  end.

(** [a - b]: exact on two ints, binary64 otherwise. *)
Definition num_sub (a b : num) : result num :=
  match a, b with
  | Int x, Int y => Ok (Int (x - y))
  | _, _ =>
      rbind (to_float a) (fun fa =>
      rbind (to_float b) (fun fb => Ok (Float (F64.sub fa fb))))
  end.

(** [a - b] on values: a [TypeError] unless both are numbers. *)
Definition sub (a b : json) : result num :=
  match as_num a, as_num b with
  | Some x, Some y => num_sub x y
  | _, _ => Raise TypeError
  end.

(** [abs(a)] *)
Definition num_abs (a : num) : num :=
  match a with
  | Int z => Int (Z.abs z)
  | Float f => Float (F64.abs f)
  end.

(** [a < k] for an int literal [k] that is exactly representable. *)
Definition num_lt_int (a : num) (k : Z) : bool :=
  match a with
  | Int z => z <? k
  | Float f => F64.ltb f (F64.of_Z k)
  end.

(** [a > k] for an int literal [k] that is exactly representable. *)
Definition num_gt_int (a : num) (k : Z) : bool :=
  match a with
  | Int z => k <? z
  | Float f => F64.gtb f (F64.of_Z k)
  end.

(** [round(a, ndigits)]: an int is returned as it is. *)
Definition num_round (a : num) (ndigits : nat) : num :=
  match a with
  | Int z => Int z
  | Float f => Float (F64.py_round f ndigits)
  end.

(** [s.endswith(suffix)] *)
Definition endswith (s suffix : string) : bool :=
  let n := String.length s in
  let m := String.length suffix in
  (m <=? n)%nat && String.eqb (substring (n - m) m s) suffix.

(** [s.replace(old, new)] for a non-empty [old]: every occurrence, found
    from left to right without overlap.  [skip] counts the characters of
    an occurrence already replaced that are still to be passed. *)
Fixpoint replace_from (old new : string) (skip : nat) (s : string) : string :=
  match s with
  | EmptyString => EmptyString
  | String c s' =>
      match skip with
      | S k => replace_from old new k s'
      | O =>
          if prefix old s
          then String.append new (replace_from old new (String.length old - 1) s')
          else String c (replace_from old new O s')
      end
  end.

Definition replace (s old new : string) : string := replace_from old new O s.

(** [str(n)] for a natural number. *)
Definition str_of_nat (n : nat) : string :=
  NilEmpty.string_of_uint (Nat.to_uint n).

Fixpoint join (sep : string) (l : list string) : string :=
  match l with
  | [] => EmptyString
  | [x] => x
  | x :: rest => String.append x (String.append sep (join sep rest))
  end.

(** [str(t)] for a tuple of naturals: [()], [(3,)], [(1, 60, 1)]. *)
Definition str_of_tuple (t : list nat) : string :=
  match t with
  | [] => "()"%string
  | [n] => String.append "(" (String.append (str_of_nat n) ",)")
  | _ => String.append "(" (String.append (join ", " (map str_of_nat t)) ")")
  end.

End Py.

(** ** NumPy arrays *)

Module Np.
Import Py.

(** A two-dimensional float64 array, by rows: what scikit-learn's
    [transform] and [inverse_transform] take and return. *)
Definition matrix : Type := list (list F64.float).

(** A float64 array of any rank, in row-major order. *)
Record ndarray : Type := mk_ndarray {
  shape : list nat;
  data : list F64.float
}.

(** The float64 value of a number stored in an array. *)
Definition float64 (v : json) : result F64.float :=
  match as_num v with
  | Some n => to_float n
  | None => Raise ValueError
  end.

(** [np.array(values).reshape(-1, 1)]: one row per value.  The model
    covers numeric columns.  For any other value NumPy builds a string or
    object array, on which the arithmetic of [predict] is not that of
    float64; the model reports such a column as a [ValueError] here. *)
Definition column (values : list json) : result matrix :=
  rmap (fun v => rbind (float64 v) (fun x => Ok [x])) values.

(** [np.array(m).reshape(1, 60, 1)]: the 60 values of [m] in order, or a
    [ValueError] when [m] does not hold 60 values. *)
Definition reshape_1_60_1 (m : matrix) : result ndarray :=
  let values := List.concat m in
  if (List.length values =? 60)%nat
  then Ok (mk_ndarray [1; 60; 1]%nat values)
  else Raise ValueError.

(** [a[0][0]] for an array [a] whose shape is [(n, 1)]: the first stored
    value, or an [IndexError] when the array has no row. *)
Definition first_of_rows (a : ndarray) : result F64.float :=
  match shape a, data a with
  | S _ :: _, x :: _ => Ok x
  | _, _ => Raise IndexError
  end.

(** [m[0][0]] *)
Definition item_0_0 (m : matrix) : result F64.float :=
  match m with
  | (x :: _) :: _ => Ok x
  | _ => Raise IndexError
  end.

(** [m[-1][0]] *)
Definition item_last_0 (m : matrix) : result F64.float :=
  match rev m with
  | (x :: _) :: _ => Ok x
  | _ => Raise IndexError
  end.

End Np.

(** ** The world outside [main.py] *)

Module Sys.
Import Py Np.

(** The object that [joblib.load] returns: a fitted scikit-learn scaler. *)
Record Scaler : Type := mk_scaler {
  transform : matrix -> result matrix;
  inverse_transform : matrix -> result matrix
}.

(** The object that [load_model] returns; [run] is its [predict] method. *)
Record Model : Type := mk_model {
  run : ndarray -> result ndarray
}.

(** The storage state seen by one request.
    - [open_json path]: [open(path)] followed by [json.load];
    - [joblib_load path] and [load_model path]: the Model Registry;
    - [listdir path]: [os.listdir]. *)
Record World : Type := mk_world {
  open_json : string -> result json;
  joblib_load : string -> result Scaler;
  load_model : string -> result Model;
  listdir : string -> result (list string)
}.

(** The calls that reach the world, in the order in which they are made. *)
Inductive event : Type :=
| OpenFile (path : string)
| JoblibLoad (path : string)
| LoadModel (path : string)
| ListDir (path : string).

(** A computation: how it ends, and the calls it made. *)
Definition io (A : Type) : Type := (result A * list event)%type.

Definition ret {A : Type} (a : A) : io A := (Ok a, []).

Definition bind {A B : Type} (m : io A) (k : A -> io B) : io B :=
  match m with
  | (Ok a, t) => let (r, t') := k a in (r, t ++ t')
  | (Raise e, t) => (Raise e, t)
  end.

(** A pure Python operation, which may raise. *)
Definition lift {A : Type} (r : result A) : io A := (r, []).

(** A call to the world. *)
Definition call {A : Type} (ev : event) (r : result A) : io A := (r, [ev]).

(** [try: body except Exception as e: handler e] *)
Definition try_except {A : Type} (body : io A) (handler : exn -> io A) : io A :=
  match body with
  | (Ok a, t) => (Ok a, t)
  | (Raise e, t) => let (r, t') := handler e in (r, t ++ t')
  end.

Definition outcome {A : Type} (m : io A) : result A := fst m.
Definition trace {A : Type} (m : io A) : list event := snd m.

End Sys.

Declare Scope io_scope.
Delimit Scope io_scope with io.
Notation "x <- m ;; k" := (Sys.bind m (fun x => k))
  (at level 61, m at next level, right associativity) : io_scope.

(** ** The endpoints *)

Section Endpoints.
Import Py Np Sys.
Open Scope string_scope.
Open Scope io_scope.

Variable w : World.

(** [str(e)] for a caught exception. *)
Variable str_exn : exn -> string.

Definition data_path (coin : string) : string := "data/" ++ coin ++ ".json".
Definition scaler_path (coin : string) : string := "models/" ++ coin ++ "_scaler.gz".
Definition model_path (coin : string) : string := "models/" ++ coin ++ ".h5".

Definition error_payload (message : string) : json :=
  JDict [("error", JStr message)].

(** [except Exception as e: return {"error": str(e)}] *)
Definition on_exception (e : exn) : io json :=
  ret (error_payload (str_exn e)).

(** Line 53 of [predict]. *)
Definition direction (predicted_price last_price : F64.float) : string :=
  if F64.gtb predicted_price last_price then "up" else "down".

(** Line 54 of [predict].  Both prices are NumPy float64 scalars (elements
    of arrays), so [/] is the IEEE division: dividing by zero gives an
    infinity or NaN, with a warning, where Python's own [float] would raise
    [ZeroDivisionError]. *)
Definition confidence (predicted_price last_price : F64.float) : F64.float :=
  F64.div (F64.abs (F64.sub predicted_price last_price)) last_price.

(** Lines 56 to 61 of [predict]. *)
Definition prediction_payload (predicted_price last_price : F64.float) : json :=
  JDict [("prediction", JStr (direction predicted_price last_price));
         ("confidence", JFloat (F64.py_round (confidence predicted_price last_price) 4));
         ("predicted_price", JFloat (F64.py_round predicted_price 2));
         ("last_price", JFloat (F64.py_round last_price 2))].

(** The body of the [try] block of [predict]. *)
Definition predict_body (coin : string) : io json :=
  prices <- call (OpenFile (data_path coin)) (open_json w (data_path coin)) ;;
  n <- lift (len prices) ;;
  if (n <? 60)%Z
  then ret (error_payload "Not enough data. Minimum 60 prices required.")
  else
    entries <- lift (iter_last 60 prices) ;;
    values <- lift (rmap (fun entry => getitem entry "price") entries) ;;
    last_60 <- lift (column values) ;;
    scaler <- call (JoblibLoad (scaler_path coin)) (joblib_load w (scaler_path coin)) ;;
    model <- call (LoadModel (model_path coin)) (load_model w (model_path coin)) ;;
    scaled <- lift (transform scaler last_60) ;;
    X <- lift (reshape_1_60_1 scaled) ;;
    pred <- lift (run model X) ;;
    match shape pred with
    | [_; 1%nat] =>
        predicted_price_scaled <- lift (first_of_rows pred) ;;
        inverse <- lift (inverse_transform scaler [[predicted_price_scaled]]) ;;
        predicted_price <- lift (item_0_0 inverse) ;;
        last_price <- lift (item_last_0 last_60) ;;
        ret (prediction_payload predicted_price last_price)
    | _ =>
        ret (error_payload ("Unexpected prediction shape: " ++ str_of_tuple (shape pred)))
    end.

Definition predict (coin : string) : io json :=
  try_except (predict_body coin) on_exception.

Definition available_coins_body : io json :=
  files <- call (ListDir "data") (listdir w "data") ;;
  let coins := map (fun f => replace f ".json" "")
                   (filter (fun f => endswith f ".json") files) in
  ret (JDict [("coins", JList (map JStr coins))]).

Definition available_coins : io json :=
  try_except available_coins_body on_exception.

(** The element expression of the comprehension of [debug_prices]:
    [entry["price"] if isinstance(entry, dict) and "price" in entry else entry] *)
Definition clean_entry (entry : json) : result json :=
  if is_dict_with "price" entry then getitem entry "price" else Ok entry.

Definition debug_prices_body (coin : string) : io json :=
  prices <- call (OpenFile (data_path coin)) (open_json w (data_path coin)) ;;
  entries <- lift (iter prices) ;;
  cleaned <- lift (rmap clean_entry entries) ;;
  ret (JDict [("coin", JStr coin); ("last_60_prices", JList (lastn 60 cleaned))]).

Definition debug_prices (coin : string) : io json :=
  try_except (debug_prices_body coin) on_exception.

(** Lines 144 to 149 of [get_signal]. *)
Definition signal_of (change : num) : string :=
  if num_lt_int (num_abs change) 1 then "hold"
  else if num_gt_int change 0 then "buy"
  else "sell".

Definition get_signal_body (coin : string) : io json :=
  prices <- call (OpenFile (data_path coin)) (open_json w (data_path coin)) ;;
  n <- lift (len prices) ;;
  if (n <? 2)%Z
  then ret (error_payload "Not enough data")
  else
    last_entry <- lift (index_from_end 1 prices) ;;
    last_price <- lift (getitem last_entry "price") ;;
    prev_entry <- lift (index_from_end 2 prices) ;;
    prev_price <- lift (getitem prev_entry "price") ;;
    change <- lift (Py.sub last_price prev_price) ;;
    ret (JDict [("signal", JStr (signal_of change));
                ("change", json_of_num (num_round change 4))]).

Definition get_signal (coin : string) : io json :=
  try_except (get_signal_body coin) on_exception.

End Endpoints.

(** ** Storage states used as test data *)

Module Fixture.
Import Py Np Sys.
Open Scope string_scope.

(** [n] points in record form, all with the same price. *)
Definition records (price : F64.float) (n : nat) : json :=
  JList (repeat (JDict [("price", JFloat price)]) n).

(** A scaler that leaves its input as it is. *)
Definition identity_scaler : Scaler :=
  mk_scaler (fun m => Ok m) (fun m => Ok m).

(** scikit-learn's [MinMaxScaler] fitted on one feature, with its
    attributes [scale_] and [min_]. *)
Definition min_max_scaler (scale_ min_ : F64.float) : Scaler :=
  mk_scaler
    (fun m => Ok (map (map (fun x => F64.add (F64.mul x scale_) min_)) m))
    (fun m => Ok (map (map (fun x => F64.div (F64.sub x min_) scale_)) m)).

(** A model that answers with a fixed array. *)
Definition fixed_model (answer : ndarray) : Model :=
  mk_model (fun _ => Ok answer).

(** A model that answers one sample with one value. *)
Definition constant_model (value : F64.float) : Model :=
  fixed_model (mk_ndarray [1; 1]%nat [value]).

Fixpoint find_file {A : Type} (path : string) (files : list (string * A)) : result A :=
  match files with
  | [] => Raise (External "FileNotFoundError")
  | (p, content) :: rest =>
      if String.eqb p path then Ok content else find_file path rest
  end.

(** A world given by the content of its files and of its directories. *)
Definition world_of (data : list (string * json))
    (scalers : list (string * Scaler)) (models : list (string * Model))
    (directories : list (string * list string)) : World :=
  mk_world (fun path => find_file path data)
           (fun path => find_file path scalers)
           (fun path => find_file path models)
           (fun path => find_file path directories).

(** One coin, [btc], with its price file and its two artifacts. *)
Definition coin_world (prices : json) (scaler : Scaler) (model : Model) : World :=
  world_of [("data/btc.json", prices)]
           [("models/btc_scaler.gz", scaler)]
           [("models/btc.h5", model)]
           [("data", ["btc.json"])].

(** 60 equal prices, an identity scaler and a model that predicts a fixed
    price. *)
Definition flat_world (last_price predicted_price : F64.float) : World :=
  coin_world (records last_price 60) identity_scaler (constant_model predicted_price).

(** 60 equal prices, an identity scaler and a model that answers one
    sample with two values. *)
Definition wide_world (price : F64.float) : World :=
  coin_world (records price 60) identity_scaler
             (fixed_model (mk_ndarray [1; 2]%nat [price; price])).

(** A price file with the given prices, in record form, and no artifact. *)
Definition series_world (prices : list json) : World :=
  world_of [("data/btc.json", JList (map (fun p => JDict [("price", p)]) prices))]
           [] [] [("data", ["btc.json"])].

(** A [data] directory with the given file names. *)
Definition directory_world (names : list string) : World :=
  world_of [] [] [] [("data", names)].

(** A rendering of [str(e)] for the examples: the name of the class for
    the exceptions of Python and NumPy, the text itself for an external
    one. *)
Definition str_exn (e : exn) : string :=
  match e with
  | KeyError => "KeyError"
  | TypeError => "TypeError"
  | IndexError => "IndexError"
  | ValueError => "ValueError"
  | OverflowError => "OverflowError"
  | External what => what
  end.

End Fixture.

(** ** Requests on the test data *)

Section FixtureRequests.
Import Py Sys.
Open Scope string_scope.

(** [get_signal] on a price file that ends with the prices [prev] and
    [last]. *)
Definition signal_for (prev last : json) : result json :=
  outcome (get_signal (Fixture.series_world [JFloat (F64.of_Z 7); prev; last])
                      Fixture.str_exn "btc").

Definition signal_payload (signal : string) (change : num) : json :=
  JDict [("signal", JStr signal); ("change", json_of_num change)].

(** The listing of a [data] directory with the given file names. *)
Definition listing_of (names : list string) : result json :=
  outcome (available_coins (Fixture.directory_world names) Fixture.str_exn).

End FixtureRequests.

(** ** Runs of the inference pipeline *)

Section Runs.
Import Py Np Sys.
Open Scope string_scope.

Variable w : World.
Variable coin : string.

(** The calls of a request that reaches the model. *)
Definition full_trace : list event :=
  [OpenFile (data_path coin); JoblibLoad (scaler_path coin);
   LoadModel (model_path coin)].

(** The request gets as far as the model's answer: the price file holds a
    list of at least 60 entries, the last 60 are records with a numeric
    price, both artifacts load, the scaler returns 60 values and the
    model returns [pred]. *)
Inductive model_answers (last_60 : matrix) (scaler : Scaler) (pred : ndarray) : Prop :=
| model_answers_intro (prices values : list json) (scaled : matrix)
    (model : Model) (X : ndarray) :
    open_json w (data_path coin) = Ok (JList prices) ->
    (60 <= List.length prices)%nat ->
    rmap (fun entry => getitem entry "price") (lastn 60 prices) = Ok values ->
    column values = Ok last_60 ->
    joblib_load w (scaler_path coin) = Ok scaler ->
    load_model w (model_path coin) = Ok model ->
    transform scaler last_60 = Ok scaled ->
    reshape_1_60_1 scaled = Ok X ->
    run model X = Ok pred ->
    model_answers last_60 scaler pred.

(** The request gets as far as the derivation of the result: the model's
    answer has one value per sample, and the scaler maps the first one
    back to [predicted_price]; [last_price] is the most recent price. *)
Inductive pipeline_runs (predicted_price last_price : F64.float) : Prop :=
| pipeline_runs_intro (last_60 inverse : matrix) (scaler : Scaler)
    (pred : ndarray) (n : nat) (predicted_price_scaled : F64.float) :
    model_answers last_60 scaler pred ->
    shape pred = [n; 1%nat] ->
    first_of_rows pred = Ok predicted_price_scaled ->
    inverse_transform scaler [[predicted_price_scaled]] = Ok inverse ->
    item_0_0 inverse = Ok predicted_price ->
    item_last_0 last_60 = Ok last_price ->
    pipeline_runs predicted_price last_price.

(** The ways in which a request can fail: an exception inside the body,
    too few points, a model answer of the wrong shape, a zero reference
    price. *)
Inductive failure : Prop :=
| fails_raising (e : exn) :
    outcome (predict_body w coin) = Raise e -> failure
| fails_short (prices : json) (n : Z) :
    open_json w (data_path coin) = Ok prices ->
    len prices = Ok n -> n < 60 -> failure
| fails_shape (last_60 : matrix) (scaler : Scaler) (pred : ndarray) :
    model_answers last_60 scaler pred ->
    (forall n, shape pred <> [n; 1%nat]) -> failure
| fails_degenerate (predicted_price last_price : F64.float) :
    pipeline_runs predicted_price last_price ->
    F64.is_zero last_price = true -> failure.

End Runs.

(** ** Well-formed stored data and artifacts *)

Section WellFormed.
Import Py Np Sys.
Open Scope string_scope.






(** The name of the file that backs a symbol in the [data] directory. *)
Definition file_name (coin : string) : string := coin ++ ".json".

(** A name without the character [.]. *)
Fixpoint dot_free (s : string) : bool :=
  match s with
  | EmptyString => true
  | String c s' => negb (Ascii.eqb c ".") && dot_free s'
  end.

(** The symbol has a backing price file among [files]. *)
Definition has_data_file (files : list string) (coin : string) : bool :=
  existsb (String.eqb (file_name coin)) files.

End WellFormed.

(** ** Reading a payload *)

Section Payloads.
Import Py.
Open Scope string_scope.

(** [payload[key]], when the payload is a dict with that key. *)
Definition field (key : string) (payload : json) : option json :=
  match payload with
  | JDict items => lookup key items
  | _ => None
  end.

Definition keys (payload : json) : list string :=
  match payload with
  | JDict items => map fst items
  | _ => []
  end.

Definition has_error (payload : json) : bool :=
  match field "error" payload with
  | Some _ => true
  | None => false
  end.

Definition registry_event (ev : Sys.event) : bool :=
  match ev with
  | Sys.JoblibLoad _ | Sys.LoadModel _ => true
  | _ => false
  end.

(** What [clean_entry] returns: the price of a record, any other entry as
    it is. *)
Definition clean (entry : json) : json :=
  match entry with
  | JDict items =>
      match lookup "price" items with
      | Some price => price
      | None => entry
      end
  | _ => entry
  end.

(** An infinity or NaN: not the value of any number. *)
Definition degenerate (x : F64.float) : bool :=
  F64.is_nan x || F64.is_infinite x.

End Payloads.

(** ** The words of the specification, over the floats of the standard library *)

Section SpecWords.


(** [k] is the integer nearest to the fraction [a / b], the even one of
    the two when [a / b] lies half way between them ([0 < b]). *)
Definition nearest_even (k a b : Z) : Prop :=
  2 * Z.abs (a - k * b) <= b
  /\ (2 * Z.abs (a - k * b) = b -> Z.even k = true).

(** The float nearest to the decimal [k / 10^n], with sign bit [s]: the
    correctly rounded quotient of the two integers. *)
Definition decimal_float (s : bool) (k : Z) (n : nat) : spec_float :=
  match k with
  | Zpos kp =>
      let '(q, e, l) :=
        SFdiv_core_binary 53 1024 (Zpos kp) 0 (10 ^ Z.of_nat n) 0 in
      binary_round_aux 53 1024 s q e l
  | _ => S754_zero s
  end.

(** [r] is [x] rounded to [n] decimal places.  A finite [x] is
    [m * 2^e] up to its sign; [r] is the float nearest to [k / 10^n] for the
    integer [k] nearest to [|x| * 10^n], ties to even.  A zero, an infinity
    and NaN are left as they are. *)
Definition rounded_to (n : nat) (x r : spec_float) : Prop :=
  match x with
  | S754_finite s m e =>
      exists k : Z,
        0 <= k
        /\ nearest_even k (Zpos m * 10 ^ Z.of_nat n * 2 ^ Z.max e 0)
                          (2 ^ Z.max (- e) 0)
        /\ r = decimal_float s k n
  | _ => r = x
  end.

End SpecWords.

(** ** Statements of the specification that the code does not meet *)

Section AsStated.
Import Py Np Sys.
Open Scope string_scope.


(** Section 4.3, step 10: the confidence is the relative change, not
    negative unless the last price is zero, in which case it is not a
    number. *)
Definition confidence_nonneg_unless_zero : Prop :=
  forall (w : World) (str_exn : exn -> string) (coin : string)
         (predicted_price last_price : F64.float),
    pipeline_runs w coin predicted_price last_price ->
    let c := F64.div (F64.abs (F64.sub predicted_price last_price)) last_price in
    exists payload,
      outcome (predict w str_exn coin) = Ok payload
      /\ field "confidence" payload = Some (JFloat (F64.py_round c 4))
      /\ (F64.is_zero last_price = false -> F64.leb F64.zero c = true)
      /\ (F64.is_zero last_price = true -> degenerate c = true).

(** Section 4.3, failure semantics: every failure, a zero reference price
    included, comes back as a payload with an error field. *)
Definition every_failure_is_an_error_payload : Prop :=
  forall (w : World) (str_exn : exn -> string) (coin : string),
    exists payload,
      outcome (predict w str_exn coin) = Ok payload
      /\ (failure w coin -> has_error payload = true).

(** Section 8, property 7: the listing holds exactly the symbols that
    have a price file. *)
Definition listing_is_exact : Prop :=
  forall (w : World) (str_exn : exn -> string) (files : list string),
    listdir w "data" = Ok files ->
    exists coins,
      outcome (available_coins w str_exn) = Ok (JDict [("coins", JList (map JStr coins))])
      /\ forall coin, In coin coins <-> has_data_file files coin = true.

End AsStated.

(** ** The rest of [main.py]: truth values, the local summary, the proxies *)

Module Truth.
Import Py.

(** [bool(v)], which [if v] and [not v] test: [None], [False], a zero, an
    empty string, list or dict are false; NaN is true. *)
Definition truthy (v : json) : bool :=
  match v with
  | JNull => false
  | JBool b => b
  | JInt z => negb (z =? 0)
  | JFloat f => negb (F64.is_zero f)
  | JStr s => negb (String.eqb s EmptyString)
  | JList l => match l with [] => false | _ :: _ => true end
  | JDict items => match items with [] => false | _ :: _ => true end
  end.

(** A float that is a number: a zero or a finite value, not an infinity
    and not NaN. *)
Definition is_number (x : F64.float) : bool :=
  match x with
  | S754_zero _ | S754_finite _ _ _ => true
  | _ => false
  end.

(** The opposite advice. *)
Definition flip (signal : string) : string :=
  if String.eqb signal "buy" then "sell"%string
  else if String.eqb signal "sell" then "buy"%string
  else signal.

(** [isinstance(v, list)] *)
Definition is_list (v : json) : bool :=
  match v with JList _ => true | _ => false end.

(** [isinstance(v, dict)] *)
Definition is_dict (v : json) : bool :=
  match v with JDict _ => true | _ => false end.

End Truth.

Section LocalCoinData.
Import Py Sys Truth.
Open Scope string_scope.
Open Scope io_scope.

Variable w : World.
Variable str_exn : exn -> string.

(** [s.capitalize()] and [s.upper()], the case mappings of Python's [str]. *)
Variable capitalize : string -> string.
Variable upper : string -> string.

(** The dict that [local_coin_data] returns for a coin and its last price. *)
Definition coin_summary (coin : string) (last : json) : json :=
  JDict [("name", JStr (capitalize coin));
         ("symbol", JStr (upper (substring 0 3 coin)));
         ("price", last);
         ("market_cap", JInt 0);
         ("volume", JInt 0);
         ("circulating_supply", JInt 0);
         ("total_supply", JInt 0);
         ("homepage", JStr "https://example.com")].

Definition local_coin_data_body (coin : string) : io json :=
  prices <- call (OpenFile (data_path coin)) (open_json w (data_path coin)) ;;
  if negb (truthy prices)
  then ret (error_payload "No price data")
  else
    last_entry <- lift (index_from_end 1 prices) ;;
    last <- lift (getitem last_entry "price") ;;
    ret (coin_summary coin last).

Definition local_coin_data (coin : string) : io json :=
  try_except (local_coin_data_body coin) (on_exception str_exn).

End LocalCoinData.

Module Http.
Import Py.

(** What [requests.get] returns: [body_json] is [response.json()]. *)
Record Response : Type := mk_response {
  status_code : Z;
  body_json : result json
}.

(** The network seen by one request: [get url params timeout] is
    [requests.get(url, params=params, timeout=timeout)]. *)
Record Net : Type := mk_net {
  get : string -> list (string * json) -> option Z -> result Response
}.

(** What a proxy endpoint returns: a value that the framework serialises
    with status 200, or a [JSONResponse] that the endpoint has built. *)
Inductive reply : Type :=
| Plain (value : json)
| JSONResponse (status : Z) (content : json).

Definition status_of (r : reply) : Z :=
  match r with
  | Plain _ => 200
  | JSONResponse status _ => status
  end.

Definition content_of (r : reply) : json :=
  match r with
  | Plain value => value
  | JSONResponse _ content => content
  end.

(** [try: body except Exception as e: handler e], without a trace. *)
Definition rtry {A : Type} (body : result A) (handler : exn -> result A) : result A :=
  match body with
  | Ok a => Ok a
  | Raise e => handler e
  end.

End Http.

Declare Scope result_scope.
Delimit Scope result_scope with result.
Notation "x <~ r ;; k" := (Py.rbind r (fun x => k))
  (at level 61, r at next level, right associativity) : result_scope.

Section Proxies.
Import Py Sys Truth Http.
Open Scope string_scope.
Open Scope result_scope.

Variable net : Net.
Variable w : World.
Variable str_exn : exn -> string.

(** [print(line)]: it writes to the standard output, and may raise. *)
Variable print : string -> result unit.

(** The rendering of the body in the constructor of [JSONResponse]; it
    raises on a content that is not JSON compliant. *)
Variable render : json -> result unit.

(** [JSONResponse(status_code=status, content=content)] *)
Definition json_response (status : Z) (content : json) : result reply :=
  _ <~ render content ;;
  Ok (JSONResponse status content).

Definition coin_url (coin : string) : string :=
  "https://api.coingecko.com/api/v3/coins/" ++ coin
  ++ "?localization=false&tickers=false&market_data=true".

Definition markets_url : string :=
  "https://api.coingecko.com/api/v3/coins/markets".

Definition markets_params : list (string * json) :=
  [("vs_currency", JStr "usd"); ("order", JStr "market_cap_desc");
   ("per_page", JInt 100); ("page", JInt 1)].

(** [len(data)] in a log line, for a list. *)
Definition count (data : json) : string :=
  match data with
  | JList l => str_of_nat (List.length l)
  | _ => EmptyString
  end.

Definition get_coin_data (coin : string) : result json :=
  rtry
    (response <~ get net (coin_url coin) [] None ;;
     if negb (status_code response =? 200)%Z
     then Ok (error_payload
                ("Failed to fetch coin data from CoinGecko for '" ++ coin ++ "'"))
     else body_json response)
    (fun e => Ok (error_payload (str_exn e))).

(** The first definition of [get_top_coins] (lines 100 to 127), with a
    local fallback file. *)
Definition get_top_coins_with_fallback : result reply :=
  rtry
    (response <~ get net markets_url markets_params (Some 5%Z) ;;
     data <~ body_json response ;;
     if is_list data
     then
       _ <~ print ("[INFO] ✅ Loaded " ++ count data ++ " coins from CoinGecko") ;;
       Ok (Plain data)
     else Raise ValueError)
    (fun e =>
       _ <~ print ("[WARN] ❌ CoinGecko failed. Loading local fallback: " ++ str_exn e) ;;
       rtry
         (fallback_data <~ open_json w "data/markets.json" ;;
          Ok (Plain fallback_data))
         (fun fallback_err =>
            _ <~ print ("[ERROR] ❌ Fallback load failed: " ++ str_exn fallback_err) ;;
            json_response 500 (error_payload (str_exn fallback_err)))).

(** The second definition of [get_top_coins] (lines 177 to 199), the one
    that the name is bound to in the end. *)
Definition get_top_coins : result reply :=
  rtry
    (response <~ get net markets_url markets_params None ;;
     data <~ body_json response ;;
     if is_list data
     then
       _ <~ print ("[INFO] ✅ Loaded " ++ count data ++ " coins from CoinGecko") ;;
       json_response 200 data
     else Raise ValueError)
    (fun e =>
       _ <~ print ("[ERROR] Failed to load top coins: " ++ str_exn e) ;;
       json_response 200 (JList [])).

End Proxies.

(** ** Test data for the rest of [main.py] *)

Module Fixture2.
Import Py Sys Http.
Open Scope string_scope.

(** A network that answers every request with the same response. *)
Definition online (response : Response) : Net :=
  mk_net (fun _ _ _ => Ok response).

(** A network that cannot be reached. *)
Definition offline : Net :=
  mk_net (fun _ _ _ => Raise (External "ConnectionError")).

(** A standard output that takes every line. *)
Definition print (line : string) : result unit := Ok tt.

(** A rendering that fails on nothing. *)
Definition render (content : json) : result unit := Ok tt.

(** The case mappings on the letters [a] to [z] and [A] to [Z]. *)
Definition upper_char (c : ascii) : ascii :=
  if (Ascii.leb "a" c && Ascii.leb c "z")%bool
  then ascii_of_nat (nat_of_ascii c - 32)
  else c.

Definition lower_char (c : ascii) : ascii :=
  if (Ascii.leb "A" c && Ascii.leb c "Z")%bool
  then ascii_of_nat (nat_of_ascii c + 32)
  else c.

Fixpoint map_chars (f : ascii -> ascii) (s : string) : string :=
  match s with
  | EmptyString => EmptyString
  | String c s' => String (f c) (map_chars f s')
  end.

Definition upper (s : string) : string := map_chars upper_char s.

Definition capitalize (s : string) : string :=
  match s with
  | EmptyString => EmptyString
  | String c s' => String (upper_char c) (map_chars lower_char s')
  end.

(** A world whose [data] directory holds the given files, each listed
    under its name. *)
Definition data_world (files : list (string * json)) : World :=
  Fixture.world_of (map (fun f => ("data/" ++ fst f, snd f)) files) [] []
                   [("data", map fst files)].

End Fixture2.

Section ProxyRequests.
Import Py Sys Http.

(** The list that the market service answers with, if it does. *)
Definition remote_list (net : Net) (timeout : option Z) : option (list json) :=
  match get net markets_url markets_params timeout with
  | Ok response =>
      match body_json response with
      | Ok (JList l) => Some l
      | _ => None
      end
  | Raise _ => None
  end.

End ProxyRequests.

(** ** Facts of binary64 arithmetic: signs *)

Section FloatSigns.
Import F64.

Lemma shr_1_nonneg (mrs : shr_record) :
  0 <= shr_m mrs -> 0 <= shr_m (shr_1 mrs).
Proof.
  destruct mrs as [m r s]; simpl.
  destruct m as [|p|p]; simpl; intros H; try lia.
  destruct p; simpl; lia.
Qed.

Lemma iter_shr_1_nonneg (p : positive) :
  forall mrs, 0 <= shr_m mrs -> 0 <= shr_m (iter_pos shr_1 p mrs).
Proof.
  induction p as [p IH|p IH|]; intros mrs H; simpl.
  - apply IH, IH, shr_1_nonneg, H.
  - apply IH, IH, H.
  - apply shr_1_nonneg, H.
Qed.

Lemma shr_fexp_nonneg (m e : Z) (l : location) :
  0 <= m -> 0 <= shr_m (fst (shr_fexp prec emax m e l)).
Proof.
  intros H. unfold shr_fexp, shr.
  assert (H0 : 0 <= shr_m (shr_record_of_loc m l)).
  { destruct l as [|[ | | ]]; simpl; exact H. }
  destruct (fexp prec emax (Zdigits2 m + e) - e); simpl; auto.
  apply iter_shr_1_nonneg, H0.
Qed.

Lemma round_nearest_even_nonneg (m : Z) (l : location) :
  0 <= m -> 0 <= round_nearest_even m l.
Proof.
  intros H. destruct l as [|[ | | ]]; simpl; try lia.
  destruct (Z.even m); lia.
Qed.

(** Rounding a non-negative mantissa keeps the sign bit and gives no
    NaN. *)
Lemma binary_round_aux_signed (s : bool) (m e : Z) (l : location) :
  0 <= m -> signed s (binary_round_aux prec emax s m e l).
Proof.
  intros H. unfold binary_round_aux.
  pose proof (shr_fexp_nonneg m e l H) as H1.
  destruct (shr_fexp prec emax m e l) as [mrs' e']. simpl in H1.
  pose proof (shr_fexp_nonneg _ e' loc_Exact
                (round_nearest_even_nonneg _ (loc_of_shr_record mrs') H1)) as H2.
  destruct (shr_fexp prec emax _ e' loc_Exact) as [mrs'' e'']. simpl in H2.
  destruct (shr_m mrs'') as [|p|p]; [reflexivity| |lia].
  destruct (e'' <=? emax - prec); reflexivity.
Qed.

Lemma binary_round_signed (s : bool) (m : positive) (e : Z) :
  signed s (binary_round prec emax s m e).
Proof.
  unfold binary_round.
  destruct (shl_align m e _) as [mz ez].
  apply binary_round_aux_signed. lia.
Qed.

Lemma binary_normalize_not_nan (m e : Z) (szero : bool) :
  is_nan (binary_normalize prec emax m e szero) = false.
Proof.
  destruct m as [|p|p]; simpl; auto.
  - pose proof (binary_round_signed false p e) as H.
    destruct (binary_round prec emax false p e); simpl in *; tauto.
  - pose proof (binary_round_signed true p e) as H.
    destruct (binary_round prec emax true p e); simpl in *; tauto.
Qed.

Lemma of_ratio_signed (s : bool) (k n : positive) :
  signed s (of_ratio s k n).
Proof.
  unfold of_ratio, SFdiv_core_binary.
  set (e' := Z.min _ _). set (m' := match (0 - 0 - e') with Z0 => _ | Zpos _ => _ | Zneg _ => _ end).
  assert (Hm : 0 <= m').
  { subst m'. destruct (0 - 0 - e'); try lia. apply Z.shiftl_nonneg. lia. }
  pose proof (Z.div_eucl_eq m' (Zpos n) ltac:(lia)) as Heq.
  pose proof (Z.mod_pos_bound m' (Zpos n) ltac:(lia)) as Hr.
  unfold Z.modulo in Hr.
  destruct (Z.div_eucl m' (Z.pos n)) as [q r]. 
  apply binary_round_aux_signed. nia.
Qed.

Lemma py_round_signed (s : bool) (x : float) (ndigits : nat) :
  signed s x -> signed s (py_round x ndigits).
Proof.
  destruct x as [s'|s'| |s' m e]; simpl; auto.
  intros ->.
  destruct (match e with Zneg p => _ | _ => _ end); simpl; auto.
  apply of_ratio_signed.
Qed.

Lemma py_round_degenerate (x : float) (ndigits : nat) :
  is_nan x || is_infinite x = true -> py_round x ndigits = x.
Proof. destruct x; simpl; intros H; try discriminate; reflexivity. Qed.

Lemma abs_signed (x : float) : is_nan x = false -> signed false (abs x).
Proof. destruct x; simpl; intros H; try discriminate; reflexivity. Qed.

(** A difference is NaN only if an operand is, or if both are infinite. *)
Lemma sub_finite_not_nan (x y : float) :
  is_nan x = false -> is_pos_finite y || is_neg_finite y = true ->
  is_nan (sub x y) = false.
Proof.
  destruct y as [sy|sy| |sy my ey]; simpl; try discriminate. intros Hx _.
  destruct x as [sx|sx| |sx mx ex]; simpl in *; try discriminate; auto.
  apply binary_normalize_not_nan.
Qed.

Lemma div_signed (sx sy : bool) (x y : float) :
  signed sx x -> (if sy then is_neg_finite y else is_pos_finite y) = true ->
  signed (xorb sx sy) (div x y).
Proof.
  destruct y as [s|s| |s my ey]; simpl; try (destruct sy; discriminate).
  intros Hx Hy.
  assert (s = sy) as -> by (destruct sy, s; congruence).
  destruct x as [s|s| |s mx ex]; simpl in *; subst; auto; try tauto.
  unfold div, SFdiv.
  unfold SFdiv_core_binary.
  set (e' := Z.min _ _). set (m' := match (ex - ey - e') with Z0 => _ | Zpos _ => _ | Zneg _ => _ end).
  assert (Hm : 0 <= m').
  { subst m'. destruct (ex - ey - e'); try lia. apply Z.shiftl_nonneg. lia. }
  pose proof (Z.div_eucl_eq m' (Zpos my) ltac:(lia)) as Heq.
  pose proof (Z.mod_pos_bound m' (Zpos my) ltac:(lia)) as Hr.
  unfold Z.modulo in Hr.
  destruct (Z.div_eucl m' (Z.pos my)) as [q r].
  apply binary_round_aux_signed. nia.
Qed.

(** Dividing by a zero gives an infinity or NaN, never a number. *)
Lemma div_by_zero (x y : float) :
  is_zero y = true -> is_nan (div x y) || is_infinite (div x y) = true.
Proof.
  destruct y; simpl; try discriminate. intros _.
  destruct x; reflexivity.
Qed.

Lemma signed_false_nonneg (x : float) : signed false x -> leb zero x = true.
Proof. destruct x as [s|s| |s m e]; simpl; try tauto; intros ->; reflexivity. Qed.

Lemma compare_eq_sym (x y : float) :
  SFcompare x y = Some Eq -> SFcompare y x = Some Eq.
Proof.
  destruct x as [sx|sx| |sx mx ex], y as [sy|sy| |sy my ey]; simpl;
    try discriminate; try reflexivity;
    try (destruct sx; discriminate); try (destruct sy; discriminate);
    try (destruct sx, sy; simpl; congruence).
  assert (Hm : forall c, match ex ?= ey with Lt => Lt | Gt => Gt | Eq => c end = Eq ->
                         ex = ey /\ c = Eq).
  { intros c. destruct (ex ?= ey) eqn:He; try discriminate.
    apply Z.compare_eq in He. auto. }
  destruct sx, sy; try discriminate; intros H; injection H as H;
    assert (Hc : match ex ?= ey with
                 | Lt => Lt | Gt => Gt
                 | Eq => Pos.compare_cont Eq mx my end = Eq)
      by (destruct (ex ?= ey); try discriminate; try exact H;
          destruct (Pos.compare_cont Eq mx my); simpl in H; congruence);
    apply Hm in Hc; destruct Hc as [-> Hc];
    apply (Pos.compare_eq mx my) in Hc; subst my;
    rewrite Z.compare_refl, Pos.compare_cont_refl; reflexivity.
Qed.

(** Two floats that compare equal are not ordered. *)
Lemma eqb_not_gtb (x y : float) : eqb x y = true -> gtb x y = false.
Proof.
  unfold eqb, gtb, SFeqb, SFltb. intros H.
  rewrite (compare_eq_sym x y); [reflexivity|].
  destruct (SFcompare x y) as [[ | | ]|]; congruence.
Qed.

(** Comparing the other way round gives the opposite answer. *)
Lemma compare_antisym (x y : float) :
  SFcompare y x = option_map CompOpp (SFcompare x y).
Proof.
  destruct x as [sx|sx| |sx mx ex], y as [sy|sy| |sy my ey]; simpl;
    try reflexivity;
    try (destruct sx; reflexivity); try (destruct sy; reflexivity);
    try (destruct sx, sy; reflexivity).
  rewrite (Z.compare_antisym ex ey).
  change (Pos.compare_cont Eq my mx) with (Pos.compare my mx).
  change (Pos.compare_cont Eq mx my) with (Pos.compare mx my).
  rewrite (Pos.compare_antisym mx my).
  destruct sx, sy; simpl; try reflexivity;
    destruct (ex ?= ey); simpl; try reflexivity;
    destruct (mx ?= my)%positive; reflexivity.
Qed.

(** [x > y] as the program tests it is [x > y] of the standard library. *)
Lemma gtb_compare (x y : float) :
  gtb x y = true <-> SFcompare x y = Some Gt.
Proof.
  unfold gtb, SFltb. rewrite compare_antisym.
  destruct (SFcompare x y) as [[ | | ]|]; simpl; split; congruence.
Qed.




(** ** Facts of decimal rounding *)

(** The quotient that [round_half_even_div] returns is the nearest integer,
    ties to even. *)
Lemma round_half_even_div_nearest (a b : Z) :
  0 <= a -> 0 < b ->
  0 <= round_half_even_div a b /\ nearest_even (round_half_even_div a b) a b.
Proof.
  intros Ha Hb. unfold round_half_even_div, nearest_even.
  pose proof (Z.div_mod a b ltac:(lia)) as Hdm.
  pose proof (Z.mod_pos_bound a b Hb) as Hr.
  pose proof (Z.div_pos a b Ha Hb) as Hq.
  set (q := a / b) in *. set (r := a mod b) in *.
  assert (Hd : a - q * b = r) by lia.
  assert (Hd' : a - (q + 1) * b = r - b) by lia.
  destruct (Z.compare_spec (2 * r) b) as [Heq|Hlt|Hgt].
  - destruct (Z.even q) eqn:He.
    + rewrite Hd. split; [lia|]. split; [lia|]. intros _. exact He.
    + rewrite Hd'. split; [lia|]. split; [lia|]. intros _.
      rewrite Z.even_add, He. reflexivity.
  - rewrite Hd. split; [lia|]. split; lia.
  - rewrite Hd'. split; [lia|]. split; lia.
Qed.

(** There is one nearest integer, once ties go to the even one. *)
Lemma nearest_even_unique (k k' a b : Z) :
  0 < b -> nearest_even k a b -> nearest_even k' a b -> k = k'.
Proof.
  intros Hb [H1 E1] [H2 E2].
  set (d := a - k * b) in *.
  assert (Hd' : a - k' * b = d - (k' - k) * b) by (unfold d; lia).
  rewrite Hd' in H2, E2.
  assert (Hc : k' - k = 0 \/ k' - k = 1 \/ k' - k = -1) by nia.
  destruct Hc as [Hc|[Hc|Hc]]; [lia| |]; rewrite Hc in H2, E2.
  - assert (Ht : 2 * d = b) by lia.
    assert (Hk : Z.even k = true) by (apply E1; lia).
    assert (Hk' : Z.even k' = true) by (apply E2; lia).
    replace k' with (k + 1) in Hk' by lia.
    rewrite Z.even_add, Hk in Hk'. discriminate.
  - assert (Ht : 2 * d = - b) by lia.
    assert (Hk : Z.even k = true) by (apply E1; lia).
    assert (Hk' : Z.even k' = true) by (apply E2; lia).
    replace k with (k' + 1) in Hk by lia.
    rewrite Z.even_add, Hk' in Hk. discriminate.
Qed.

(** A float has one rounding to [n] decimal places. *)
Lemma rounded_to_unique (n : nat) (x r r' : float) :
  rounded_to n x r -> rounded_to n x r' -> r = r'.
Proof.
  destruct x as [s|s| |s m e]; simpl; try congruence.
  intros (k & _ & Hk & ->) (k' & _ & Hk' & ->).
  f_equal. apply (nearest_even_unique k k' _ _) in Hk'; [exact Hk'| |exact Hk].
  apply Z.pow_pos_nonneg; lia.
Qed.

Lemma of_ratio_decimal (s : bool) (kp : positive) (n : nat) :
  of_ratio s kp (Z.to_pos (10 ^ Z.of_nat n)) = decimal_float s (Zpos kp) n.
Proof.
  unfold of_ratio, decimal_float.
  rewrite Z2Pos.id by (apply Z.pow_pos_nonneg; lia).
  reflexivity.
Qed.

(** What [round(x, n)] returns is [x] rounded to [n] decimal places. *)
Lemma py_round_rounded_to (n : nat) (x : float) :
  rounded_to n x (py_round x n).
Proof.
  destruct x as [s|s| |s m e]; try reflexivity.
  unfold rounded_to, py_round. cbv zeta.
  assert (HN : 0 < 10 ^ Z.of_nat n) by (apply Z.pow_pos_nonneg; lia).
  set (N := 10 ^ Z.of_nat n) in *.
  assert (Hdec : forall k,
             match k with
             | Zpos kp => of_ratio s kp (Z.to_pos N)
             | _ => S754_zero s
             end = decimal_float s k n).
  { intros [|kp|kp]; try reflexivity. apply of_ratio_decimal. }
  destruct e as [|p|p].
  - exists (Zpos m * 2 ^ 0 * N). split; [|split; [|apply Hdec]].
    + change (2 ^ 0) with 1. nia.
    + unfold nearest_even. change (Z.max 0 0) with 0.
      change (Z.max (- 0) 0) with 0. change (2 ^ 0) with 1.
      replace (Zpos m * N * 1 - Zpos m * 1 * N * 1) with 0 by lia.
      simpl. split; lia.
  - assert (Hp : 0 < 2 ^ Zpos p) by (apply Z.pow_pos_nonneg; lia).
    exists (Zpos m * 2 ^ Zpos p * N). split; [nia|]. split; [|apply Hdec].
    unfold nearest_even.
    replace (Z.max (Zpos p) 0) with (Zpos p) by lia.
    replace (Z.max (- Zpos p) 0) with 0 by lia. simpl (2 ^ 0).
    replace (Zpos m * N * 2 ^ Zpos p - Zpos m * 2 ^ Zpos p * N * 1) with 0 by lia.
    simpl. split; lia.
  - assert (Hp : 0 < 2 ^ Zpos p) by (apply Z.pow_pos_nonneg; lia).
    destruct (round_half_even_div_nearest (Zpos m * N) (2 ^ Zpos p))
      as [Hk Hnear]; [nia|exact Hp|].
    exists (round_half_even_div (Zpos m * N) (2 ^ Zpos p)).
    split; [exact Hk|]. split; [|apply Hdec].
    replace (Z.max (Zneg p) 0) with 0 by lia.
    replace (Z.max (- Zneg p) 0) with (Zpos p) by lia.
    simpl (2 ^ 0). rewrite Z.mul_1_r. exact Hnear.
Qed.

End FloatSigns.

(** ** Facts of the computation type *)

Section IoFacts.
Import Py Sys.
Context {A B : Type}.

Lemma bind_lift_ok (a : A) (k : A -> io B) : bind (lift (Ok a)) k = k a.
Proof. unfold bind, lift. destruct (k a) as [r t]. reflexivity. Qed.

Lemma bind_call_ok (ev : event) (a : A) (k : A -> io B) :
  bind (call ev (Ok a)) k = (outcome (k a), ev :: trace (k a)).
Proof. unfold bind, call, outcome, trace. destruct (k a) as [r t]. reflexivity. Qed.

(** A sequence that ends normally ran both of its parts normally. *)
Lemma bind_ok_inv (m : io A) (k : A -> io B) (b : B) :
  outcome (bind m k) = Ok b ->
  exists a, outcome m = Ok a /\ outcome (k a) = Ok b.
Proof.
  destruct m as [[a|e] t]; unfold bind, outcome; simpl.
  - destruct (k a) as [r t'] eqn:Hk. simpl. intros ->. exists a.
    rewrite Hk. auto.
  - discriminate.
Qed.

End IoFacts.

Section TryFacts.
Import Py Sys.
Context {A : Type}.

(** A handler that returns makes the whole statement return. *)
Lemma try_except_returns (body : io A) (handler : exn -> A) :
  exists a, outcome (try_except body (fun e => ret (handler e))) = Ok a
    /\ (forall x, outcome body = Ok x -> a = x)
    /\ (forall e, outcome body = Raise e -> a = handler e).
Proof.
  destruct body as [[x|e] t]; unfold try_except, outcome, ret; simpl.
  - exists x. repeat split; congruence.
  - exists (handler e). repeat split; congruence.
Qed.

Lemma try_except_ok (body : io A) (handler : exn -> io A) (a : A) (t : list event) :
  body = (Ok a, t) -> try_except body handler = (Ok a, t).
Proof. intros ->. reflexivity. Qed.

End TryFacts.

(** ** Facts of the list operations *)

Section ListFacts.
Import Py.

Lemma lastn_length {A : Type} (n : nat) (l : list A) :
  List.length (lastn n l) = Nat.min (List.length l) n.
Proof. unfold lastn. rewrite length_skipn. lia. Qed.

Lemma lastn_map {A B : Type} (f : A -> B) (n : nat) (l : list A) :
  lastn n (map f l) = map f (lastn n l).
Proof. unfold lastn. rewrite length_map, skipn_map. reflexivity. Qed.


End ListFacts.

(** ** Facts of [predict] *)

Section PredictFacts.
Import Py Np Sys.
Open Scope string_scope.

Variable w : World.
Variable str_exn : exn -> string.
Variable coin : string.

Lemma predict_body_short (prices : json) (n : Z) :
  open_json w (data_path coin) = Ok prices ->
  len prices = Ok n ->
  n < 60 ->
  predict_body w coin
  = (Ok (error_payload "Not enough data. Minimum 60 prices required."),
     [OpenFile (data_path coin)]).
Proof.
  intros Hopen Hlen Hn. unfold predict_body.
  rewrite Hopen, bind_call_ok, Hlen, bind_lift_ok.
  destruct (Z.ltb_spec n 60) as [_|Hge]; [reflexivity|lia].
Qed.

(** Up to the model's answer, the body is decided by the run. *)
Lemma predict_body_answers (last_60 : matrix) (scaler : Scaler) (pred : ndarray) :
  model_answers w coin last_60 scaler pred ->
  predict_body w coin
  = (outcome
       (match shape pred with
        | [_; 1%nat] =>
            (predicted_price_scaled <- lift (first_of_rows pred) ;;
             inverse <- lift (inverse_transform scaler [[predicted_price_scaled]]) ;;
             predicted_price <- lift (item_0_0 inverse) ;;
             last_price <- lift (item_last_0 last_60) ;;
             ret (prediction_payload predicted_price last_price))%io
        | _ =>
            ret (error_payload
                   ("Unexpected prediction shape: " ++ str_of_tuple (shape pred)))
        end),
     full_trace coin).
Proof.
  intros [prices values scaled model X Hopen Hlen Hvalues Hcol Hsc Hmd Htr HX Hrun].
  unfold predict_body.
  rewrite Hopen, bind_call_ok. cbn [len]. rewrite bind_lift_ok.
  destruct (Z.ltb_spec (Z.of_nat (List.length prices)) 60) as [Hlt|_]; [lia|].
  cbn [iter_last]. rewrite bind_lift_ok, Hvalues, bind_lift_ok, Hcol, bind_lift_ok.
  rewrite Hsc, bind_call_ok, Hmd, bind_call_ok.
  rewrite Htr, bind_lift_ok, HX, bind_lift_ok, Hrun, bind_lift_ok.
  unfold full_trace, outcome, trace.
  destruct (shape pred) as [|n0 [|[|[|n1]] [|n2 rest]]]; cbn [snd fst ret];
    try reflexivity.
  destruct (first_of_rows pred) as [v|e]; [rewrite bind_lift_ok|reflexivity].
  destruct (inverse_transform scaler [[v]]) as [inv|e]; [rewrite bind_lift_ok|reflexivity].
  destruct (item_0_0 inv) as [p|e]; [rewrite bind_lift_ok|reflexivity].
  destruct (item_last_0 last_60) as [l|e]; reflexivity.
Qed.

Lemma predict_body_runs (predicted_price last_price : F64.float) :
  pipeline_runs w coin predicted_price last_price ->
  predict_body w coin
  = (Ok (prediction_payload predicted_price last_price), full_trace coin).
Proof.
  intros [last_60 inverse scaler pred n v Hans Hshape Hv Hinv Hp Hl].
  rewrite (predict_body_answers _ _ _ Hans), Hshape.
  rewrite Hv, bind_lift_ok, Hinv, bind_lift_ok, Hp, bind_lift_ok, Hl, bind_lift_ok.
  reflexivity.
Qed.

Lemma predict_runs (predicted_price last_price : F64.float) :
  pipeline_runs w coin predicted_price last_price ->
  predict w str_exn coin
  = (Ok (prediction_payload predicted_price last_price), full_trace coin).
Proof.
  intros H. unfold predict. apply try_except_ok, predict_body_runs, H.
Qed.

Lemma predict_body_bad_shape (last_60 : matrix) (scaler : Scaler) (pred : ndarray) :
  model_answers w coin last_60 scaler pred ->
  (forall n, shape pred <> [n; 1%nat]) ->
  predict_body w coin
  = (Ok (error_payload
           ("Unexpected prediction shape: " ++ str_of_tuple (shape pred))),
     full_trace coin).
Proof.
  intros Hans Hshape.
  rewrite (predict_body_answers _ _ _ Hans).
  destruct (shape pred) as [|n0 [|[|[|n1]] [|n2 rest]]]; try reflexivity.
  exfalso. apply (Hshape n0). reflexivity.
Qed.

Lemma predict_bad_shape (last_60 : matrix) (scaler : Scaler) (pred : ndarray) :
  model_answers w coin last_60 scaler pred ->
  (forall n, shape pred <> [n; 1%nat]) ->
  predict w str_exn coin
  = (Ok (error_payload
           ("Unexpected prediction shape: " ++ str_of_tuple (shape pred))),
     full_trace coin).
Proof.
  intros Hans Hshape. unfold predict.
  apply try_except_ok, (predict_body_bad_shape _ _ _ Hans Hshape).
Qed.

End PredictFacts.

(** [ran H a Ha]: the sequence in [H] returned, so its first part returned
    some [a] (fact [Ha]) and [H] now speaks of the rest. *)
Tactic Notation "ran" hyp(H) ident(a) ident(Ha) :=
  apply bind_ok_inv in H; destruct H as (a & Ha & H).

(** A branch of the body that returns an error payload. *)
Ltac returns_error H :=
  left; eexists; unfold Sys.outcome, Sys.ret in H; simpl in H;
  injection H as <-; reflexivity.

Section PredictInversion.
Import Py Np Sys.
Open Scope string_scope.

Variable w : World.
Variable coin : string.

Lemma chars_length (s : string) : List.length (chars s) = String.length s.
Proof.
  unfold chars. rewrite length_map.
  induction s as [|c s IH]; simpl; congruence.
Qed.

(** Subscripting a character with ["price"] is a [TypeError]. *)
Lemma rmap_chars_raises (n : nat) (s : string) :
  (0 < n)%nat -> (0 < String.length s)%nat ->
  rmap (fun entry => getitem entry "price") (lastn n (chars s)) = Raise TypeError.
Proof.
  intros Hn Hs.
  pose proof (lastn_length n (chars s)) as Hlen. rewrite chars_length in Hlen.
  destruct (lastn n (chars s)) as [|x rest] eqn:Hl; simpl in Hlen; [lia|].
  assert (Hin : In x (chars s)).
  { rewrite <- (firstn_skipn (List.length (chars s) - n) (chars s)).
    apply in_or_app. right. unfold lastn in Hl. rewrite Hl. left. reflexivity. }
  unfold chars in Hin. apply in_map_iff in Hin. destruct Hin as (c & <- & _).
  reflexivity.
Qed.

(** A body that returns returns an error payload, or the payload derived
    from a run of the whole pipeline. *)
Lemma predict_body_ok_inv (payload : json) :
  outcome (predict_body w coin) = Ok payload ->
  (exists message, payload = error_payload message)
  \/ (exists predicted_price last_price,
        pipeline_runs w coin predicted_price last_price
        /\ payload = prediction_payload predicted_price last_price).
Proof.
  unfold predict_body. intros H.
  ran H prices Hopen. ran H n Hlen.
  unfold outcome, call, lift in Hopen, Hlen. simpl in Hopen, Hlen.
  destruct (Z.ltb_spec n 60) as [Hlt|Hge]; [returns_error H|].
  ran H entries Hentries. ran H values Hvalues. ran H last_60 Hcol.
  ran H scaler Hsc. ran H model Hmd. ran H scaled Hscaled.
  ran H X HX. ran H pred Hpred.
  unfold outcome, call, lift in Hentries, Hvalues, Hcol, Hsc, Hmd, Hscaled, HX, Hpred.
  simpl in Hentries, Hvalues, Hcol, Hsc, Hmd, Hscaled, HX, Hpred.
  assert (Hlist : exists l, prices = JList l /\ (60 <= List.length l)%nat
                            /\ entries = lastn 60 l).
  { destruct prices as [ | | | |s|l|items]; simpl in Hlen, Hentries;
      try discriminate.
    - exfalso. injection Hlen as <-. injection Hentries as <-.
      rewrite rmap_chars_raises in Hvalues; [discriminate|lia|lia].
    - injection Hlen as <-. injection Hentries as <-.
      exists l. repeat split. lia. }
  destruct Hlist as (l & -> & Hl & ->).
  assert (Hans : model_answers w coin last_60 scaler pred)
    by (econstructor; eassumption).
  destruct (shape pred) as [|n0 [|[|[|n1]] [|n2 rest]]] eqn:Hshape;
    try returns_error H.
  ran H v Hv. ran H inverse Hinv. ran H p Hp. ran H lp Hlp.
  unfold outcome, lift, ret in Hv, Hinv, Hp, Hlp, H.
  simpl in Hv, Hinv, Hp, Hlp, H. injection H as <-.
  right. exists p, lp. split; [|reflexivity].
  econstructor; eassumption.
Qed.

End PredictInversion.

(** ** Well-formed requests run the pipeline *)

Section WellFormedFacts.
Import Py Np Sys.
Open Scope string_scope.

Lemma rmap_length {A B : Type} (f : A -> result B) (l : list A) :
  forall out, rmap f l = Ok out -> List.length out = List.length l.
Proof.
  induction l as [|a l IH]; simpl; intros out H.
  - injection H as <-. reflexivity.
  - destruct (f a) as [b|e]; simpl in H; [|discriminate].
    destruct (rmap f l) as [bs|e]; simpl in H; [|discriminate].
    injection H as <-. simpl. f_equal. apply IH. reflexivity.
Qed.





End WellFormedFacts.

(** ** The test data runs the pipeline *)

(** A premise of a run on test data holds by evaluation. *)
Ltac by_evaluation := first [reflexivity | apply Nat.leb_le; reflexivity].

Section FixtureFacts.
Import Py Np Sys.
Open Scope string_scope.

Lemma flat_world_runs (last_price predicted_price : F64.float) :
  pipeline_runs (Fixture.flat_world last_price predicted_price) "btc"
                predicted_price last_price.
Proof.
  eapply pipeline_runs_intro with (n := 1%nat);
    [eapply model_answers_intro|..]; by_evaluation.
Qed.



End FixtureFacts.

(** ** Direction and confidence *)

Section Derivation.
Import Py Np Sys.
Open Scope string_scope.

Variable w : World.
Variable str_exn : exn -> string.
Variable coin : string.

Lemma confidence_nonneg (predicted_price last_price : F64.float) :
  F64.is_pos_finite last_price = true ->
  F64.is_nan predicted_price = false ->
  F64.signed false (confidence predicted_price last_price).
Proof.
  intros Hl Hp. unfold confidence.
  apply (div_signed false false); [|exact Hl].
  apply abs_signed, sub_finite_not_nan; [exact Hp|].
  rewrite Hl. reflexivity.
Qed.



(** C3: the direction is "up" exactly when the predicted price is
    strictly above the last price, in the order of binary64 numbers as the
    standard library defines it; in every other case it is "down", and so
    it is when the two prices compare equal. *)
Theorem predict_direction_strict (predicted_price last_price : F64.float) :
  pipeline_runs w coin predicted_price last_price ->
  exists payload d,
    outcome (predict w str_exn coin) = Ok payload
    /\ field "prediction" payload = Some (JStr d)
    /\ (d = "up" <-> SFcompare predicted_price last_price = Some Gt)
    /\ (d = "down" <-> SFcompare predicted_price last_price <> Some Gt)
    /\ (SFcompare predicted_price last_price = Some Eq -> d = "down").
Proof.
  intros Hrun.
  exists (prediction_payload predicted_price last_price),
         (direction predicted_price last_price).
  rewrite (predict_runs w str_exn coin _ _ Hrun).
  split; [reflexivity|]. split; [reflexivity|].
  unfold direction.
  pose proof (gtb_compare predicted_price last_price) as Hgt.
  destruct (F64.gtb predicted_price last_price).
  - assert (Hc : SFcompare predicted_price last_price = Some Gt)
      by (apply Hgt; reflexivity).
    rewrite Hc. repeat split; intros; congruence.
  - assert (Hc : SFcompare predicted_price last_price <> Some Gt).
    { intros Hc. apply Hgt in Hc. discriminate. }
    repeat split; intros; try congruence; try discriminate.
Qed.

(** C4 (as amended): the confidence is [|predicted - last| / last] in
    binary64 arithmetic, returned rounded to 4 places.  It is not negative
    when the last price is a positive finite number and the prediction is
    not NaN.  When the last price is zero nothing is raised: the
    confidence is an infinity or NaN, and it is returned as it is in a
    prediction payload. *)
Theorem predict_confidence_formula (predicted_price last_price : F64.float) :
  pipeline_runs w coin predicted_price last_price ->
  let c := F64.div (F64.abs (F64.sub predicted_price last_price)) last_price in
  exists payload,
    outcome (predict w str_exn coin) = Ok payload
    /\ field "confidence" payload = Some (JFloat (F64.py_round c 4))
    /\ (F64.is_pos_finite last_price = true ->
        F64.is_nan predicted_price = false ->
        F64.leb F64.zero c = true
        /\ F64.leb F64.zero (F64.py_round c 4) = true)
    /\ (F64.is_zero last_price = true ->
        degenerate c = true
        /\ F64.py_round c 4 = c
        /\ has_error payload = false).
Proof.
  intros Hrun c.
  exists (prediction_payload predicted_price last_price).
  rewrite (predict_runs w str_exn coin _ _ Hrun).
  split; [reflexivity|]. split; [reflexivity|]. split.
  - intros Hl Hp.
    pose proof (confidence_nonneg _ _ Hl Hp) as Hc.
    split; apply signed_false_nonneg; [|apply py_round_signed]; exact Hc.
  - intros Hz.
    pose proof (div_by_zero (F64.abs (F64.sub predicted_price last_price))
                  last_price Hz) as Hd.
    split; [exact Hd|]. split; [|reflexivity].
    apply py_round_degenerate, Hd.
Qed.

(** C7: on success the payload has the four fields [prediction],
    [confidence], [predicted_price] and [last_price] and no other; the two
    prices it returns are the prices rounded to 2 decimal places, and the
    confidence is [|predicted - last| / last] rounded to 4 decimal places.
    A rounded value is the float nearest to the decimal that is nearest to
    the exact value, ties to even. *)
Theorem predict_rounds (predicted_price last_price : F64.float) :
  pipeline_runs w coin predicted_price last_price ->
  exists payload pp lp cf,
    outcome (predict w str_exn coin) = Ok payload
    /\ keys payload = ["prediction"; "confidence"; "predicted_price"; "last_price"]
    /\ field "predicted_price" payload = Some (JFloat pp)
    /\ rounded_to 2 predicted_price pp
    /\ field "last_price" payload = Some (JFloat lp)
    /\ rounded_to 2 last_price lp
    /\ field "confidence" payload = Some (JFloat cf)
    /\ rounded_to 4
         (SFdiv 53 1024 (SFabs (SFsub 53 1024 predicted_price last_price))
                last_price)
         cf.
Proof.
  intros Hrun.
  exists (prediction_payload predicted_price last_price),
         (F64.py_round predicted_price 2), (F64.py_round last_price 2),
         (F64.py_round (confidence predicted_price last_price) 4).
  rewrite (predict_runs w str_exn coin _ _ Hrun).
  split; [reflexivity|]. split; [reflexivity|].
  split; [reflexivity|]. split; [apply py_round_rounded_to|].
  split; [reflexivity|]. split; [apply py_round_rounded_to|].
  split; [reflexivity|].
  apply (py_round_rounded_to 4 (confidence predicted_price last_price)).
Qed.

(** C2: with fewer than 60 points [predict] returns the insufficient-data
    error, and its only call to the world is the read of the price file:
    neither the scaler nor the model is loaded. *)
Theorem predict_insufficient_data (prices : json) (n : Z) :
  open_json w (data_path coin) = Ok prices ->
  len prices = Ok n ->
  n < 60 ->
  outcome (predict w str_exn coin)
  = Ok (error_payload "Not enough data. Minimum 60 prices required.")
  /\ trace (predict w str_exn coin) = [OpenFile (data_path coin)]
  /\ existsb registry_event (trace (predict w str_exn coin)) = false.
Proof.
  intros Hopen Hlen Hn. unfold predict.
  rewrite (predict_body_short w coin prices n Hopen Hlen Hn).
  repeat split.
Qed.

(** C8: a model answer whose shape is not [(n, 1)] makes [predict] return
    the error payload that names the shape, not a prediction and not an
    exception. *)
Theorem predict_unexpected_shape (last_60 : matrix) (scaler : Scaler) (pred : ndarray) :
  model_answers w coin last_60 scaler pred ->
  (forall n, shape pred <> [n; 1%nat]) ->
  outcome (predict w str_exn coin)
  = Ok (error_payload
          ("Unexpected prediction shape: " ++ str_of_tuple (shape pred)))
  /\ (forall payload, outcome (predict w str_exn coin) = Ok payload ->
      has_error payload = true /\ field "prediction" payload = None).
Proof.
  intros Hans Hshape.
  rewrite (predict_bad_shape w str_exn coin _ _ _ Hans Hshape).
  split; [reflexivity|].
  intros payload H. injection H as <-. split; reflexivity.
Qed.

(** C5 (as amended): [predict] always returns a payload and never an
    exception.  An exception raised in its body comes back as
    [{"error": str(e)}]; too few points and a wrong output shape come back
    as error payloads; a run of the whole pipeline comes back as the
    complete prediction payload, also when the last price is zero, where
    nothing is raised and the payload has no error field.  No other
    payload is returned. *)
Theorem predict_total :
  exists payload,
    outcome (predict w str_exn coin) = Ok payload
    /\ (forall e, outcome (predict_body w coin) = Raise e ->
        payload = error_payload (str_exn e))
    /\ (forall prices n,
          open_json w (data_path coin) = Ok prices ->
          len prices = Ok n -> n < 60 ->
          payload = error_payload "Not enough data. Minimum 60 prices required.")
    /\ (forall last_60 scaler pred,
          model_answers w coin last_60 scaler pred ->
          (forall n, shape pred <> [n; 1%nat]) ->
          payload = error_payload
                      ("Unexpected prediction shape: " ++ str_of_tuple (shape pred)))
    /\ (forall predicted_price last_price,
          pipeline_runs w coin predicted_price last_price ->
          payload = prediction_payload predicted_price last_price
          /\ has_error payload = false)
    /\ ((exists message, payload = error_payload message)
        \/ (exists predicted_price last_price,
              pipeline_runs w coin predicted_price last_price
              /\ payload = prediction_payload predicted_price last_price)).
Proof.
  destruct (try_except_returns (predict_body w coin)
              (fun e => error_payload (str_exn e)))
    as (payload & Hout & Hok & Hraise).
  exists payload. split; [exact Hout|].
  split; [exact Hraise|]. split; [|split; [|split]].
  - intros prices n Hopen Hlen Hn. apply Hok.
    rewrite (predict_body_short w coin prices n Hopen Hlen Hn). reflexivity.
  - intros last_60 scaler pred Hans Hshape. apply Hok.
    rewrite (predict_body_bad_shape w coin _ _ _ Hans Hshape). reflexivity.
  - intros p l Hrun.
    rewrite (Hok _ (f_equal fst (predict_body_runs w coin p l Hrun))).
    split; reflexivity.
  - destruct (outcome (predict_body w coin)) as [x|e] eqn:Hbody.
    + rewrite (Hok x eq_refl).
      apply (predict_body_ok_inv w coin x Hbody).
    + left. exists (str_exn e). apply Hraise. reflexivity.
Qed.

End Derivation.

(** ** Concrete requests *)

Section PredictExamples.
Import Py Np Sys.
Open Scope string_scope.

(** Section 8, property 5: last price 100 and predicted price 105 give
    "up" with confidence 0.05. *)
Example predict_100_105 :
  outcome (predict (Fixture.flat_world (F64.of_Z 100) (F64.of_Z 105))
                   Fixture.str_exn "btc")
  = Ok (JDict [("prediction", JStr "up");
               ("confidence", JFloat (F64.dec 5 100));
               ("predicted_price", JFloat (F64.of_Z 105));
               ("last_price", JFloat (F64.of_Z 100))]).
Proof. vm_compute. reflexivity. Qed.

Example py_round_2675 : F64.py_round (F64.dec 2675 1000) 2 = F64.dec 267 100.
Proof. vm_compute. reflexivity. Qed.

Example py_round_tie_even : F64.py_round (F64.dec 125 1000) 2 = F64.dec 12 100.
Proof. vm_compute. reflexivity. Qed.

Example py_round_third : F64.py_round (F64.dec 1 3) 4 = F64.dec 3333 10000.
Proof. vm_compute. reflexivity. Qed.



Lemma predict_direction_strict_witness :
  (exists payload,
      outcome (predict (Fixture.flat_world (F64.of_Z 100) (F64.of_Z 105))
                       Fixture.str_exn "btc") = Ok payload
      /\ field "prediction" payload = Some (JStr "up"))
  /\ (exists payload,
        outcome (predict (Fixture.flat_world (F64.of_Z 100) (F64.of_Z 100))
                         Fixture.str_exn "btc") = Ok payload
        /\ field "prediction" payload = Some (JStr "down"))
  /\ (exists payload,
        outcome (predict (Fixture.flat_world (F64.of_Z 100) (F64.of_Z 95))
                         Fixture.str_exn "btc") = Ok payload
        /\ field "prediction" payload = Some (JStr "down")).
Proof.
  split; [|split].
  - destruct (predict_direction_strict
                (Fixture.flat_world (F64.of_Z 100) (F64.of_Z 105))
                Fixture.str_exn "btc" (F64.of_Z 105) (F64.of_Z 100)
                (flat_world_runs _ _))
      as (payload & d & Hout & Hd & Hup & _ & _).
    exists payload. split; [exact Hout|].
    assert (Hs : d = "up") by (apply Hup; vm_compute; reflexivity).
    rewrite Hd, Hs. reflexivity.
  - destruct (predict_direction_strict
                (Fixture.flat_world (F64.of_Z 100) (F64.of_Z 100))
                Fixture.str_exn "btc" (F64.of_Z 100) (F64.of_Z 100)
                (flat_world_runs _ _))
      as (payload & d & Hout & Hd & _ & _ & Heq).
    exists payload. split; [exact Hout|].
    assert (Hs : d = "down") by (apply Heq; vm_compute; reflexivity).
    rewrite Hd, Hs. reflexivity.
  - destruct (predict_direction_strict
                (Fixture.flat_world (F64.of_Z 100) (F64.of_Z 95))
                Fixture.str_exn "btc" (F64.of_Z 95) (F64.of_Z 100)
                (flat_world_runs _ _))
      as (payload & d & Hout & Hd & _ & Hdown & _).
    exists payload. split; [exact Hout|].
    assert (Hs : d = "down") by (apply Hdown; vm_compute; discriminate).
    rewrite Hd, Hs. reflexivity.
Defined.

(** Section 8, property 6: last price 100 and predicted price 100 give
    "down". *)
Example predict_100_100 :
  field "prediction"
    (prediction_payload (F64.of_Z 100) (F64.of_Z 100)) = Some (JStr "down")
  /\ fst (predict (Fixture.flat_world (F64.of_Z 100) (F64.of_Z 100))
                  Fixture.str_exn "btc")
     = Ok (prediction_payload (F64.of_Z 100) (F64.of_Z 100)).
Proof. split; vm_compute; reflexivity. Qed.

Lemma predict_confidence_formula_witness :
  pipeline_runs (Fixture.flat_world F64.zero (F64.of_Z 1)) "btc"
                (F64.of_Z 1) F64.zero
  /\ let c := F64.div (F64.abs (F64.sub (F64.of_Z 1) F64.zero)) F64.zero in
     exists payload,
       outcome (predict (Fixture.flat_world F64.zero (F64.of_Z 1))
                        Fixture.str_exn "btc") = Ok payload
       /\ field "confidence" payload = Some (JFloat (F64.py_round c 4))
       /\ (F64.is_pos_finite F64.zero = true ->
           F64.is_nan (F64.of_Z 1) = false ->
           F64.leb F64.zero c = true
           /\ F64.leb F64.zero (F64.py_round c 4) = true)
       /\ (F64.is_zero F64.zero = true ->
           degenerate c = true
           /\ F64.py_round c 4 = c
           /\ has_error payload = false).
Proof.
  split; [apply flat_world_runs|].
  apply (predict_confidence_formula
           (Fixture.flat_world F64.zero (F64.of_Z 1)) Fixture.str_exn "btc"
           (F64.of_Z 1) F64.zero).
  apply flat_world_runs.
Defined.

(** C4 as stated fails.  With last price -2 and predicted price -1 the
    last price is not zero and the confidence is -0.5. *)
Lemma predict_confidence_sign_follows_price :
  pipeline_runs (Fixture.flat_world (F64.of_Z (-2)) (F64.of_Z (-1))) "btc"
                (F64.of_Z (-1)) (F64.of_Z (-2))
  /\ F64.is_zero (F64.of_Z (-2)) = false
  /\ confidence (F64.of_Z (-1)) (F64.of_Z (-2)) = F64.dec (-5) 10
  /\ field "confidence"
       (prediction_payload (F64.of_Z (-1)) (F64.of_Z (-2)))
     = Some (JFloat (F64.dec (-5) 10))
  /\ F64.leb F64.zero (F64.dec (-5) 10) = false
  /\ ~ confidence_nonneg_unless_zero.
Proof.
  split; [apply flat_world_runs|].
  split; [reflexivity|].
  split; [vm_compute; reflexivity|].
  split; [vm_compute; reflexivity|].
  split; [vm_compute; reflexivity|].
  intros H.
  destruct (H (Fixture.flat_world (F64.of_Z (-2)) (F64.of_Z (-1)))
              Fixture.str_exn "btc" _ _ (flat_world_runs _ _))
    as (payload & _ & _ & Hnz & _).
  specialize (Hnz eq_refl). vm_compute in Hnz. discriminate.
Qed.

(** C5 as stated fails.  With last price 0 and predicted price 1 the
    request is a failure in the sense of the specification (a zero
    reference price), and [predict] returns a prediction with confidence
    [+inf] and no error field. *)
Lemma predict_zero_price_is_no_error :
  failure (Fixture.flat_world F64.zero (F64.of_Z 1)) "btc"
  /\ outcome (predict (Fixture.flat_world F64.zero (F64.of_Z 1))
                      Fixture.str_exn "btc")
     = Ok (JDict [("prediction", JStr "up");
                  ("confidence", JFloat (S754_infinity false));
                  ("predicted_price", JFloat (F64.of_Z 1));
                  ("last_price", JFloat F64.zero)])
  /\ ~ every_failure_is_an_error_payload.
Proof.
  assert (Hfail : failure (Fixture.flat_world F64.zero (F64.of_Z 1)) "btc").
  { apply (fails_degenerate _ _ (F64.of_Z 1) F64.zero);
      [apply flat_world_runs|reflexivity]. }
  split; [exact Hfail|].
  split; [vm_compute; reflexivity|].
  intros H.
  destruct (H (Fixture.flat_world F64.zero (F64.of_Z 1)) Fixture.str_exn "btc")
    as (payload & Hout & Herr).
  specialize (Herr Hfail).
  vm_compute in Hout. injection Hout as <-.
  vm_compute in Herr. discriminate.
Qed.

(** 2.675, whose binary64 value lies below the decimal, rounds to 2.67,
    and 0.125, a tie, to the even 0.12. *)
Example rounded_2675 :
  rounded_to 2 (F64.dec 2675 1000) (S754_finite false 6012305502539612 (-51)).
Proof.
  replace (F64.dec 2675 1000) with (S754_finite false 6023564501608038 (-51))
    by (vm_compute; reflexivity).
  exists 267. split; [lia|]. split; [|vm_compute; reflexivity].
  vm_compute. split; [discriminate|]. intros H. discriminate H.
Qed.

Example rounded_tie_even :
  rounded_to 2 (F64.dec 125 1000) (S754_finite false 8646911284551352 (-56)).
Proof.
  replace (F64.dec 125 1000) with (S754_finite false 4503599627370496 (-55))
    by (vm_compute; reflexivity).
  exists 12. split; [lia|]. split; [|vm_compute; reflexivity].
  vm_compute. split; [discriminate|]. intros _. reflexivity.
Qed.

Lemma predict_rounds_witness :
  exists payload,
    outcome (predict (Fixture.flat_world (F64.dec 123456 1000) (F64.dec 2675 1000))
                     Fixture.str_exn "btc") = Ok payload
    /\ keys payload = ["prediction"; "confidence"; "predicted_price"; "last_price"]
    /\ field "predicted_price" payload
       = Some (JFloat (S754_finite false 6012305502539612 (-51)))
    /\ field "last_price" payload
       = Some (JFloat (S754_finite false 8687725156174397 (-46)))
    /\ field "confidence" payload
       = Some (JFloat (S754_finite false 8811743030913112 (-53))).
Proof.
  destruct (predict_rounds
              (Fixture.flat_world (F64.dec 123456 1000) (F64.dec 2675 1000))
              Fixture.str_exn "btc" (F64.dec 2675 1000) (F64.dec 123456 1000)
              (flat_world_runs _ _))
    as (payload & pp & lp & cf & Hout & Hkeys & Hpp & Rpp & Hlp & Rlp & Hcf & Rcf).
  exists payload. split; [exact Hout|]. split; [exact Hkeys|].
  rewrite Hpp, Hlp, Hcf.
  rewrite (rounded_to_unique _ _ _ _ Rpp (py_round_rounded_to _ _)).
  rewrite (rounded_to_unique _ _ _ _ Rlp (py_round_rounded_to _ _)).
  rewrite (rounded_to_unique _ _ _ _ Rcf (py_round_rounded_to _ _)).
  vm_compute. repeat split.
Defined.

End PredictExamples.

(** ** The signal endpoint *)

Section SignalFacts.
Import Py Np Sys.
Open Scope string_scope.

Variable w : World.
Variable str_exn : exn -> string.
Variable coin : string.

Lemma index_from_end_1 (front : list json) (prev last : json) :
  index_from_end 1 (JList (front ++ [prev; last])) = Ok last.
Proof.
  unfold index_from_end. rewrite rev_app_distr. reflexivity.
Qed.

Lemma index_from_end_2 (front : list json) (prev last : json) :
  index_from_end 2 (JList (front ++ [prev; last])) = Ok prev.
Proof.
  unfold index_from_end. rewrite rev_app_distr. reflexivity.
Qed.





End SignalFacts.

Section SignalExamples.
Import Py Np Sys.
Open Scope string_scope.

Example signal_hold :
  signal_for (JFloat (F64.of_Z 100)) (JFloat (F64.dec 1005 10))
  = Ok (signal_payload "hold" (Float (F64.dec 5 10))).
Proof. vm_compute. reflexivity. Qed.

Example signal_buy :
  signal_for (JFloat (F64.of_Z 100)) (JFloat (F64.of_Z 105))
  = Ok (signal_payload "buy" (Float (F64.of_Z 5))).
Proof. vm_compute. reflexivity. Qed.

Example signal_sell :
  signal_for (JFloat (F64.of_Z 105)) (JFloat (F64.of_Z 100))
  = Ok (signal_payload "sell" (Float (F64.of_Z (-5)))).
Proof. vm_compute. reflexivity. Qed.

Example signal_boundary :
  signal_for (JFloat (F64.of_Z 100)) (JFloat (F64.of_Z 101))
  = Ok (signal_payload "buy" (Float F64.one)).
Proof. vm_compute. reflexivity. Qed.

Example signal_int_prices :
  signal_for (JInt 100) (JInt 99) = Ok (signal_payload "sell" (Int (-1))).
Proof. vm_compute. reflexivity. Qed.


End SignalExamples.

(** ** The debug endpoint *)

Section DebugFacts.
Import Py Np Sys.
Open Scope string_scope.

Variable w : World.
Variable str_exn : exn -> string.
Variable coin : string.

(** The element expression of the comprehension never raises. *)
Lemma clean_entry_ok (entry : json) : clean_entry entry = Ok (clean entry).
Proof.
  unfold clean_entry, is_dict_with, getitem, clean.
  destruct entry; try reflexivity.
  destruct (lookup "price" items); reflexivity.
Qed.

Lemma rmap_clean_entry (entries : list json) :
  rmap clean_entry entries = Ok (map clean entries).
Proof.
  induction entries as [|entry entries IH]; simpl.
  - reflexivity.
  - rewrite clean_entry_ok, IH. reflexivity.
Qed.




End DebugFacts.

Section DebugExamples.
Import Py Np Sys.
Open Scope string_scope.


Example debug_prices_mixed :
  outcome (debug_prices
             (Fixture.world_of
                [("data/eth.json",
                  JList [JInt 1; JDict [("price", JInt 2)];
                         JDict [("volume", JInt 9)]; JStr "x"])]
                [] [] [])
             Fixture.str_exn "eth")
  = Ok (JDict [("coin", JStr "eth");
               ("last_60_prices",
                JList [JInt 1; JInt 2; JDict [("volume", JInt 9)]; JStr "x"])]).
Proof. vm_compute. reflexivity. Qed.

Example debug_prices_empty :
  outcome (debug_prices (Fixture.series_world []) Fixture.str_exn "btc")
  = Ok (JDict [("coin", JStr "btc"); ("last_60_prices", JList [])]).
Proof. vm_compute. reflexivity. Qed.

End DebugExamples.

(** ** The listing endpoint *)

Section StringFacts.
Import Py.
Open Scope string_scope.

Lemma length_append (s t : string) :
  String.length (s ++ t) = (String.length s + String.length t)%nat.
Proof. induction s as [|c s IH]; simpl; congruence. Qed.

Lemma substring_all (s : string) : substring 0 (String.length s) s = s.
Proof. induction s as [|c s IH]; simpl; congruence. Qed.

Lemma substring_split (s : string) :
  forall k, (k <= String.length s)%nat ->
    s = substring 0 k s ++ substring k (String.length s - k) s.
Proof.
  induction s as [|c s IH]; intros k Hk.
  - destruct k; reflexivity.
  - destruct k as [|k].
    + simpl. rewrite substring_all. reflexivity.
    + simpl in Hk. simpl. f_equal. apply IH. lia.
Qed.

Lemma substring_append (s t : string) :
  substring (String.length s) (String.length t) (s ++ t) = t.
Proof.
  induction s as [|c s IH]; simpl.
  - apply substring_all.
  - exact IH.
Qed.

Lemma endswith_append (s suffix : string) : endswith (s ++ suffix) suffix = true.
Proof.
  unfold endswith. rewrite length_append.
  replace (String.length s + String.length suffix - String.length suffix)%nat
    with (String.length s) by lia.
  rewrite substring_append, String.eqb_refl.
  apply andb_true_iff. split; [|reflexivity].
  apply Nat.leb_le. lia.
Qed.

Lemma endswith_inv (s suffix : string) :
  endswith s suffix = true -> exists stem, s = stem ++ suffix.
Proof.
  unfold endswith. intros H. apply andb_true_iff in H. destruct H as [Hle Heq].
  apply Nat.leb_le in Hle. apply String.eqb_eq in Heq.
  set (k := (String.length s - String.length suffix)%nat) in *.
  exists (substring 0 k s).
  transitivity (substring 0 k s ++ substring k (String.length s - k) s).
  - apply substring_split. lia.
  - f_equal.
    replace (String.length s - k)%nat with (String.length suffix) by lia.
    exact Heq.
Qed.

(** Removing [.json] from [stem.json] gives the stem back when the stem
    has no dot. *)
Lemma replace_stem (stem : string) :
  dot_free stem = true -> replace (stem ++ ".json") ".json" "" = stem.
Proof.
  unfold replace. induction stem as [|c stem IH]; intros H.
  - reflexivity.
  - simpl in H. apply andb_true_iff in H. destruct H as [Hc Hrest].
    cbn [String.append replace_from prefix].
    destruct (ascii_dec "." c) as [<-|_]; [discriminate|].
    f_equal. apply IH, Hrest.
Qed.

End StringFacts.

Section ListingFacts.
Import Py Np Sys.
Open Scope string_scope.

Variable w : World.
Variable str_exn : exn -> string.

Lemma has_data_file_iff (files : list string) (coin : string) :
  has_data_file files coin = true <-> In (file_name coin) files.
Proof.
  unfold has_data_file. rewrite existsb_exists. split.
  - intros (f & Hin & Heq). apply String.eqb_eq in Heq. congruence.
  - intros Hin. exists (file_name coin). split; [exact Hin|].
    apply String.eqb_refl.
Qed.

(** The listing asks the world for the [data] directory only. *)
Lemma available_coins_trace :
  trace (available_coins w str_exn) = [ListDir "data"].
Proof.
  unfold available_coins, available_coins_body.
  destruct (listdir w "data") as [files|e]; reflexivity.
Qed.

(** Two worlds with the same [data] directory have the same listing,
    whatever their price files, scalers and models are. *)
Lemma available_coins_ignores_registry (w' : World) :
  listdir w "data" = listdir w' "data" ->
  available_coins w str_exn = available_coins w' str_exn.
Proof.
  intros H. unfold available_coins, available_coins_body.
  rewrite H. reflexivity.
Qed.

(** When the stems of the files in [data] have no dot, the listing holds
    exactly the symbols that have a price file. *)
Lemma available_coins_exact_on_plain_names (files : list string) :
  listdir w "data" = Ok files ->
  (forall stem, In (file_name stem) files -> dot_free stem = true) ->
  exists coins,
    available_coins w str_exn
    = (Ok (JDict [("coins", JList (map JStr coins))]), [ListDir "data"])
    /\ forall coin, In coin coins <-> has_data_file files coin = true.
Proof.
  intros Hdir Hplain.
  exists (map (fun f => replace f ".json" "")
              (filter (fun f => endswith f ".json") files)).
  split.
  - unfold available_coins, available_coins_body.
    rewrite Hdir, bind_call_ok. reflexivity.
  - intros coin. rewrite has_data_file_iff, in_map_iff. split.
    + intros (f & <- & Hin). apply filter_In in Hin. destruct Hin as [Hin Hend].
      apply endswith_inv in Hend. destruct Hend as (stem & ->).
      rewrite (replace_stem stem (Hplain stem Hin)). exact Hin.
    + intros Hin. exists (file_name coin). split.
      * apply replace_stem, Hplain, Hin.
      * apply filter_In. split; [exact Hin|]. apply endswith_append.
Qed.

End ListingFacts.

Section ListingExamples.
Import Py Np Sys.
Open Scope string_scope.

(** C9 (a defect of the code): with the file [a.json.json] in [data] the
    listing holds the symbol [a], which has no price file, and misses the
    symbol [a.json], which has one: [replace] removes every [.json] of
    the name and not only the extension. *)
Theorem available_coins_double_extension :
  listing_of ["a.json.json"] = Ok (JDict [("coins", JList [JStr "a"])])
  /\ has_data_file ["a.json.json"] "a" = false
  /\ has_data_file ["a.json.json"] "a.json" = true
  /\ ~ listing_is_exact.
Proof.
  split; [vm_compute; reflexivity|].
  split; [vm_compute; reflexivity|].
  split; [vm_compute; reflexivity|].
  intros H.
  destruct (H (Fixture.directory_world ["a.json.json"]) Fixture.str_exn
              ["a.json.json"] eq_refl) as (coins & Hout & Hexact).
  vm_compute in Hout. injection Hout as Hcoins.
  destruct coins as [|c [|c' rest]]; try discriminate.
  injection Hcoins as <-.
  assert (Hin : In "a" ["a"]) by (left; reflexivity).
  apply Hexact in Hin. vm_compute in Hin. discriminate.
Qed.

Example listing_plain :
  listing_of ["bitcoin.json"; "notes.txt"; "ethereum.json"]
  = Ok (JDict [("coins", JList [JStr "bitcoin"; JStr "ethereum"])]).
Proof. vm_compute. reflexivity. Qed.

End ListingExamples.


Section MoreExamples.
Import Py Np Sys.
Open Scope string_scope.

Lemma predict_insufficient_data_witness :
  outcome (predict (Fixture.series_world (repeat (JFloat F64.one) 59))
                   Fixture.str_exn "btc")
  = Ok (error_payload "Not enough data. Minimum 60 prices required.")
  /\ trace (predict (Fixture.series_world (repeat (JFloat F64.one) 59))
                    Fixture.str_exn "btc")
     = [OpenFile (data_path "btc")]
  /\ existsb registry_event
       (trace (predict (Fixture.series_world (repeat (JFloat F64.one) 59))
                       Fixture.str_exn "btc")) = false.
Proof.
  apply (predict_insufficient_data
           (Fixture.series_world (repeat (JFloat F64.one) 59)) Fixture.str_exn "btc"
           (JList (map (fun p => JDict [("price", p)]) (repeat (JFloat F64.one) 59)))
           59).
  - reflexivity.
  - reflexivity.
  - lia.
Defined.

Lemma wide_answer_reaches_model :
  model_answers (Fixture.wide_world F64.one) "btc"
                (repeat [F64.one] 60) Fixture.identity_scaler
                (mk_ndarray [1; 2]%nat [F64.one; F64.one]).
Proof.
  eapply model_answers_intro; by_evaluation.
Qed.

Lemma predict_unexpected_shape_witness :
  outcome (predict (Fixture.wide_world F64.one) Fixture.str_exn "btc")
  = Ok (error_payload "Unexpected prediction shape: (1, 2)")
  /\ (forall payload,
        outcome (predict (Fixture.wide_world F64.one) Fixture.str_exn "btc")
        = Ok payload ->
        has_error payload = true /\ field "prediction" payload = None).
Proof.
  apply (predict_unexpected_shape
           (Fixture.wide_world F64.one) Fixture.str_exn "btc"
           (repeat [F64.one] 60) Fixture.identity_scaler
           (mk_ndarray [1; 2]%nat [F64.one; F64.one])).
  - apply wide_answer_reaches_model.
  - intros n H. discriminate H.
Defined.

(** A model that answers with a vector of 60 values, and a request for a
    coin that has no price file. *)
Example predict_vector_answer :
  outcome (predict (Fixture.coin_world (Fixture.records F64.one 60)
                      Fixture.identity_scaler
                      (Fixture.fixed_model
                         (mk_ndarray [60]%nat (repeat F64.one 60))))
                   Fixture.str_exn "btc")
  = Ok (error_payload "Unexpected prediction shape: (60,)").
Proof. vm_compute. reflexivity. Qed.

Example predict_missing_file :
  predict (Fixture.flat_world F64.one F64.one) Fixture.str_exn "eth"
  = (Ok (error_payload "FileNotFoundError"), [OpenFile "data/eth.json"]).
Proof. vm_compute. reflexivity. Qed.

Example predict_bare_numbers :
  predict (Fixture.coin_world (JList (repeat (JFloat F64.one) 60))
             Fixture.identity_scaler (Fixture.constant_model F64.one))
          Fixture.str_exn "btc"
  = (Ok (error_payload "TypeError"), [OpenFile "data/btc.json"]).
Proof. vm_compute. reflexivity. Qed.

(** A min-max scaler fitted on the range from 0 to 128: prices of 64 are
    scaled to 0.5, and a scaled prediction of 0.75 is a price of 96. *)
Example predict_min_max :
  outcome (predict (Fixture.coin_world (Fixture.records (F64.of_Z 64) 60)
                      (Fixture.min_max_scaler (F64.dec 1 128) F64.zero)
                      (Fixture.constant_model (F64.dec 3 4)))
                   Fixture.str_exn "btc")
  = Ok (JDict [("prediction", JStr "up");
               ("confidence", JFloat (F64.dec 5 10));
               ("predicted_price", JFloat (F64.of_Z 96));
               ("last_price", JFloat (F64.of_Z 64))]).
Proof. vm_compute. reflexivity. Qed.

End MoreExamples.

(** ** More on [predict]: the window, the calls, the edge cases *)

Section PredictWindow.
Import Py Np Sys.
Open Scope string_scope.

(** Only the last 60 entries of the price file count: two storage states
    whose price lists have at least 60 entries and the same last 60, and
    which hold the same artifacts, get the same answer and make the same
    calls. *)
Theorem predict_uses_last_60 (w w' : World) (str_exn : exn -> string)
    (coin : string) (l l' : list json) :
  open_json w (data_path coin) = Ok (JList l) ->
  open_json w' (data_path coin) = Ok (JList l') ->
  (60 <= List.length l)%nat ->
  (60 <= List.length l')%nat ->
  lastn 60 l = lastn 60 l' ->
  joblib_load w (scaler_path coin) = joblib_load w' (scaler_path coin) ->
  load_model w (model_path coin) = load_model w' (model_path coin) ->
  predict w str_exn coin = predict w' str_exn coin.
Proof.
  intros Hopen Hopen' Hl Hl' Hlast Hsc Hmd.
  unfold predict, predict_body.
  rewrite Hopen, Hopen', !bind_call_ok. cbn [len]. rewrite !bind_lift_ok.
  destruct (Z.ltb_spec (Z.of_nat (List.length l)) 60) as [Hlt|_]; [lia|].
  destruct (Z.ltb_spec (Z.of_nat (List.length l')) 60) as [Hlt|_]; [lia|].
  cbn [iter_last]. rewrite !bind_lift_ok, Hlast, Hsc, Hmd. reflexivity.
Qed.

End PredictWindow.

Section PredictWindowExamples.
Import Py Np Sys.
Open Scope string_scope.

Lemma predict_uses_last_60_witness :
  predict (Fixture.flat_world (F64.of_Z 100) (F64.of_Z 105)) Fixture.str_exn "btc"
  = predict (Fixture.coin_world
               (JList (JStr "header" :: JNull
                       :: repeat (JDict [("price", JFloat (F64.of_Z 100))]) 60))
               Fixture.identity_scaler (Fixture.constant_model (F64.of_Z 105)))
            Fixture.str_exn "btc".
Proof.
  apply (predict_uses_last_60
           (Fixture.flat_world (F64.of_Z 100) (F64.of_Z 105))
           (Fixture.coin_world
              (JList (JStr "header" :: JNull
                      :: repeat (JDict [("price", JFloat (F64.of_Z 100))]) 60))
              Fixture.identity_scaler (Fixture.constant_model (F64.of_Z 105)))
           Fixture.str_exn "btc"
           (repeat (JDict [("price", JFloat (F64.of_Z 100))]) 60)
           (JStr "header" :: JNull
            :: repeat (JDict [("price", JFloat (F64.of_Z 100))]) 60)).
  - reflexivity.
  - reflexivity.
  - apply Nat.leb_le. reflexivity.
  - apply Nat.leb_le. reflexivity.
  - reflexivity.
  - reflexivity.
  - reflexivity.
Defined.

End PredictWindowExamples.

Section PredictCalls.
Import Py Np Sys.
Open Scope string_scope.

Variable w : World.
Variable str_exn : exn -> string.
Variable coin : string.

Lemma trace_on_exception (body : io json) :
  trace (try_except body (on_exception str_exn)) = trace body.
Proof.
  destruct body as [[a|e] t]; unfold try_except, on_exception, ret, trace; simpl.
  - reflexivity.
  - apply app_nil_r.
Qed.

Lemma outcome_on_exception_ok (body : io json) :
  exists payload, outcome (try_except body (on_exception str_exn)) = Ok payload.
Proof.
  destruct body as [[a|e] t]; unfold try_except, on_exception, ret, outcome; simpl;
    eexists; reflexivity.
Qed.

(** What the body of [predict] has read when it turns to the registry. *)
Lemma predict_body_trace :
  trace (predict_body w coin) = [OpenFile (data_path coin)]
  \/ (exists l values,
        open_json w (data_path coin) = Ok (JList l)
        /\ (60 <= List.length l)%nat
        /\ rmap (fun entry => getitem entry "price") (lastn 60 l) = Ok values
        /\ ((trace (predict_body w coin)
             = [OpenFile (data_path coin); JoblibLoad (scaler_path coin)]
             /\ exists e, joblib_load w (scaler_path coin) = Raise e)
            \/ (trace (predict_body w coin) = full_trace coin
                /\ exists scaler, joblib_load w (scaler_path coin) = Ok scaler))).
Proof.
  unfold predict_body.
  destruct (open_json w (data_path coin)) as [prices|e] eqn:Hopen; [|left; reflexivity].
  rewrite bind_call_ok.
  destruct (len prices) as [n|e] eqn:Hlen; [|left; reflexivity].
  rewrite bind_lift_ok.
  destruct (Z.ltb_spec n 60) as [Hlt|Hge]; [left; reflexivity|].
  destruct (iter_last 60 prices) as [entries|e] eqn:Hentries; [|left; reflexivity].
  rewrite bind_lift_ok.
  destruct (rmap (fun entry => getitem entry "price") entries) as [values|e] eqn:Hvalues;
    [|left; reflexivity].
  rewrite bind_lift_ok.
  destruct (column values) as [last_60|e]; [|left; reflexivity].
  rewrite bind_lift_ok.
  right.
  assert (Hlist : exists l, prices = JList l /\ (60 <= List.length l)%nat
                            /\ entries = lastn 60 l).
  { destruct prices as [ | | | |s|l|items]; simpl in Hlen, Hentries;
      try discriminate.
    - exfalso. injection Hlen as <-. injection Hentries as <-.
      rewrite rmap_chars_raises in Hvalues; [discriminate|lia|lia].
    - injection Hlen as <-. injection Hentries as <-.
      exists l. repeat split. lia. }
  destruct Hlist as (l & -> & Hl & ->).
  exists l, values. split; [reflexivity|]. split; [exact Hl|]. split; [exact Hvalues|].
  destruct (joblib_load w (scaler_path coin)) as [scaler|e].
  - right. split; [|exists scaler; reflexivity].
    rewrite bind_call_ok.
    destruct (load_model w (model_path coin)) as [model|e]; [|reflexivity].
    rewrite bind_call_ok.
    destruct (transform scaler last_60) as [scaled|e]; [|reflexivity].
    rewrite bind_lift_ok.
    destruct (reshape_1_60_1 scaled) as [X|e]; [|reflexivity].
    rewrite bind_lift_ok.
    destruct (run model X) as [pred|e]; [|reflexivity].
    rewrite bind_lift_ok.
    destruct (shape pred) as [|n0 [|[|[|n1]] [|n2 rest]]]; try reflexivity.
    destruct (first_of_rows pred) as [v|e]; [|reflexivity].
    rewrite bind_lift_ok.
    destruct (inverse_transform scaler [[v]]) as [inverse|e]; [|reflexivity].
    rewrite bind_lift_ok.
    destruct (item_0_0 inverse) as [p|e]; [|reflexivity].
    rewrite bind_lift_ok.
    destruct (item_last_0 last_60) as [lp|e]; reflexivity.
  - left. split; [reflexivity|]. exists e. reflexivity.
Qed.

(** The calls of [predict] come in one order: the price file, then the
    scaler, then the model.  The registry is consulted only after the file
    gave a list of at least 60 entries whose last 60 all hold a price, and
    the model is loaded only after the scaler has been. *)
Theorem predict_call_order :
  (trace (predict w str_exn coin) = [OpenFile (data_path coin)]
   \/ trace (predict w str_exn coin)
      = [OpenFile (data_path coin); JoblibLoad (scaler_path coin)]
   \/ trace (predict w str_exn coin) = full_trace coin)
  /\ (existsb registry_event (trace (predict w str_exn coin)) = true ->
      exists l values,
        open_json w (data_path coin) = Ok (JList l)
        /\ (60 <= List.length l)%nat
        /\ rmap (fun entry => getitem entry "price") (lastn 60 l) = Ok values)
  /\ (In (LoadModel (model_path coin)) (trace (predict w str_exn coin)) ->
      exists scaler, joblib_load w (scaler_path coin) = Ok scaler).
Proof.
  unfold predict. rewrite trace_on_exception.
  destruct predict_body_trace
    as [H | (l & values & Hopen & Hl & Hvalues & [[H He] | [H Hs]])];
    rewrite H.
  - split; [auto|]. split.
    + discriminate.
    + intros [Heq | []]. discriminate.
  - split; [auto|]. split.
    + intros _. exists l, values. auto.
    + intros [Heq | [Heq | []]]; discriminate.
  - split; [auto|]. split.
    + intros _. exists l, values. auto.
    + intros _. exact Hs.
Qed.

End PredictCalls.

Section PredictEdges.
Import Py Np Sys.
Open Scope string_scope.

Variable w : World.
Variable str_exn : exn -> string.
Variable coin : string.

(** A comprehension raises the exception that every failing element
    raises. *)
Lemma rmap_raises {A B : Type} (f : A -> result B) (e : exn) (l : list A) :
  (forall a, In a l -> f a = Raise e \/ exists b, f a = Ok b) ->
  (exists a, In a l /\ f a = Raise e) ->
  rmap f l = Raise e.
Proof.
  induction l as [|a l IH]; intros Hall (x & Hin & Hx).
  - destruct Hin.
  - simpl. destruct (Hall a (or_introl eq_refl)) as [Ha | (b & Ha)]; rewrite Ha.
    + reflexivity.
    + simpl. rewrite IH.
      * reflexivity.
      * intros a' Ha'. apply Hall. right. exact Ha'.
      * destruct Hin as [-> | Hin]; [congruence|]. exists x. auto.
Qed.

(** One record without a price among the last 60 fails the request with a
    [KeyError], before any artifact is loaded; the records are dicts here,
    and entries before the window do not matter. *)
Theorem predict_missing_price (l : list json) (bad : list (string * json)) :
  open_json w (data_path coin) = Ok (JList l) ->
  (60 <= List.length l)%nat ->
  Forall (fun entry => Truth.is_dict entry = true) (lastn 60 l) ->
  In (JDict bad) (lastn 60 l) ->
  lookup "price" bad = None ->
  predict w str_exn coin
  = (Ok (error_payload (str_exn KeyError)), [OpenFile (data_path coin)]).
Proof.
  intros Hopen Hl Hdicts Hin Hbad.
  unfold predict, predict_body.
  rewrite Hopen, bind_call_ok. cbn [len]. rewrite bind_lift_ok.
  destruct (Z.ltb_spec (Z.of_nat (List.length l)) 60) as [Hlt|_]; [lia|].
  cbn [iter_last]. rewrite bind_lift_ok.
  rewrite (rmap_raises (fun entry => getitem entry "price") KeyError).
  - reflexivity.
  - intros entry Hentry. rewrite Forall_forall in Hdicts.
    specialize (Hdicts entry Hentry).
    destruct entry; try discriminate. simpl.
    destruct (lookup "price" items); [right; eexists; reflexivity|left; reflexivity].
  - exists (JDict bad). split; [exact Hin|]. simpl. rewrite Hbad. reflexivity.
Qed.

(** A prediction that is NaN is reported as "down", with a NaN confidence
    and a NaN predicted price, and without an error. *)
Theorem predict_nan_is_down (last_price : F64.float) :
  pipeline_runs w coin S754_nan last_price ->
  predict w str_exn coin
  = (Ok (JDict [("prediction", JStr "down");
                ("confidence", JFloat S754_nan);
                ("predicted_price", JFloat S754_nan);
                ("last_price", JFloat (F64.py_round last_price 2))]),
     full_trace coin).
Proof.
  intros Hrun. rewrite (predict_runs w str_exn coin _ _ Hrun).
  unfold prediction_payload, direction, confidence.
  destruct last_price; reflexivity.
Qed.

Lemma compare_refl_finite (s : bool) (m : positive) (e : Z) :
  SFcompare (S754_finite s m e) (S754_finite s m e) = Some Eq.
Proof.
  simpl. rewrite Z.compare_refl, Pos.compare_cont_refl.
  destruct s; reflexivity.
Qed.

Lemma sub_self_finite (s : bool) (m : positive) (e : Z) :
  F64.sub (S754_finite s m e) (S754_finite s m e) = S754_zero false.
Proof.
  unfold F64.sub, SFsub. rewrite Z.sub_diag. reflexivity.
Qed.

(** A prediction equal to a finite, non-zero last price is reported as
    "down" with a confidence of zero. *)
Theorem predict_no_change (price : F64.float) :
  pipeline_runs w coin price price ->
  F64.is_pos_finite price || F64.is_neg_finite price = true ->
  exists payload c,
    outcome (predict w str_exn coin) = Ok payload
    /\ field "prediction" payload = Some (JStr "down")
    /\ field "confidence" payload = Some (JFloat c)
    /\ F64.is_zero c = true.
Proof.
  intros Hrun Hfinite.
  rewrite (predict_runs w str_exn coin _ _ Hrun).
  destruct price as [ | | |s m e]; try discriminate.
  exists (prediction_payload (S754_finite s m e) (S754_finite s m e)),
         (S754_zero s).
  split; [reflexivity|].
  unfold prediction_payload, direction, confidence, F64.gtb, SFltb.
  rewrite compare_refl_finite, sub_self_finite.
  destruct s; repeat split.
Qed.

(** What the comprehension of [predict] reads from an entry is what
    [debug_prices] puts in its place. *)
Lemma rmap_getitem_clean (entries : list json) :
  forall values,
    rmap (fun entry => getitem entry "price") entries = Ok values ->
    map clean entries = values.
Proof.
  induction entries as [|entry entries IH]; simpl; intros values H.
  - injection H as <-. reflexivity.
  - destruct (getitem entry "price") as [v|e] eqn:Hv; simpl in H; [|discriminate].
    destruct (rmap (fun entry => getitem entry "price") entries) as [vs|e];
      simpl in H; [|discriminate].
    injection H as <-. f_equal; [|apply IH; reflexivity].
    destruct entry; try discriminate. simpl in *.
    destruct (lookup "price" items); congruence.
Qed.

(** Whenever [predict] gets as far as its model, [debug_prices] shows the
    very window that [predict] scales: its 60 values, turned into a float64
    column, are the array [last_60]. *)
Theorem debug_prices_shows_the_window (last_60 : matrix) (scaler : Scaler)
    (pred : ndarray) :
  model_answers w coin last_60 scaler pred ->
  exists out,
    outcome (debug_prices w str_exn coin)
    = Ok (JDict [("coin", JStr coin); ("last_60_prices", JList out)])
    /\ List.length out = 60%nat
    /\ column out = Ok last_60.
Proof.
  intros [prices values scaled model X Hopen Hlen Hvalues Hcol _ _ _ _ _].
  exists values. split; [|split].
  - unfold debug_prices, debug_prices_body.
    rewrite Hopen, bind_call_ok. cbn [iter]. rewrite bind_lift_ok.
    rewrite rmap_clean_entry, bind_lift_ok, lastn_map.
    rewrite (rmap_getitem_clean _ _ Hvalues). reflexivity.
  - rewrite (rmap_length _ _ _ Hvalues), lastn_length. lia.
  - exact Hcol.
Qed.


End PredictEdges.

(** ** More on [get_signal] *)

Section FloatOpposites.
Import F64.

Lemma binary_round_aux_opp (s : bool) (m e : Z) (l : location) :
  binary_round_aux prec emax (negb s) m e l
  = SFopp (binary_round_aux prec emax s m e l).
Proof.
  unfold binary_round_aux.
  destruct (shr_fexp prec emax m e l) as [mrs' e'].
  destruct (shr_fexp prec emax _ e' loc_Exact) as [mrs'' e''].
  destruct (shr_m mrs'') as [|p|p]; try reflexivity.
  destruct (e'' <=? emax - prec); reflexivity.
Qed.

Lemma binary_round_opp (s : bool) (m : positive) (e : Z) :
  binary_round prec emax (negb s) m e = SFopp (binary_round prec emax s m e).
Proof.
  unfold binary_round.
  destruct (shl_align m e _) as [mz ez].
  apply binary_round_aux_opp.
Qed.

(** Rounding the opposite integer gives the opposite float, or the same
    zero. *)
Lemma binary_normalize_opp (z e : Z) :
  binary_normalize prec emax (- z) e false
  = match z with
    | Z0 => S754_zero false
    | _ => SFopp (binary_normalize prec emax z e false)
    end.
Proof.
  destruct z as [|p|p]; simpl; try reflexivity.
  - apply (binary_round_opp false).
  - rewrite <- (binary_round_opp true). reflexivity.
Qed.

(** Swapping the operands of a difference of two numbers gives the
    opposite difference, or a zero on both sides. *)
Lemma sub_swap (x y : float) :
  Truth.is_number x = true -> Truth.is_number y = true ->
  (sub y x = SFopp (sub x y) /\ is_nan (sub x y) = false)
  \/ (is_zero (sub x y) = true /\ is_zero (sub y x) = true).
Proof.
  destruct x as [sx|sx| |sx mx ex], y as [sy|sy| |sy my ey]; try discriminate;
    intros _ _.
  - right. destruct sx, sy; split; reflexivity.
  - left. simpl. rewrite Bool.negb_involutive. split; reflexivity.
  - left. simpl. split; reflexivity.
  - unfold sub, SFsub. rewrite (Z.min_comm ey ex).
    set (X := cond_Zopp sx (Z.pos (fst (shl_align mx ex (Z.min ex ey))))).
    set (Y := cond_Zopp sy (Z.pos (fst (shl_align my ey (Z.min ex ey))))).
    replace (Y - X) with (- (X - Y)) by lia.
    rewrite binary_normalize_opp.
    destruct (X - Y) eqn:Hd.
    + right. split; reflexivity.
    + left. split; [reflexivity|]. rewrite <- Hd. apply binary_normalize_not_nan.
    + left. split; [reflexivity|]. rewrite <- Hd. apply binary_normalize_not_nan.
Qed.

End FloatOpposites.

Section SignalMore.
Import Py Np Sys.
Open Scope string_scope.

(** The advice for the opposite change is the opposite advice. *)
Lemma signal_of_opp (c : F64.float) :
  F64.is_nan c = false ->
  signal_of (Float (SFopp c)) = Truth.flip (signal_of (Float c)).
Proof.
  destruct c as [s|s| |s m e]; try discriminate; intros _.
  - destruct s; reflexivity.
  - destruct s; reflexivity.
  - unfold signal_of, num_abs, num_lt_int, SFopp, F64.abs, SFabs.
    destruct (F64.ltb (S754_finite false m e) (F64.of_Z 1)); [reflexivity|].
    destruct s; reflexivity.
Qed.

Lemma signal_of_zero (c : F64.float) :
  F64.is_zero c = true -> signal_of (Float c) = "hold".
Proof. destruct c as [s| | | ]; try discriminate. destruct s; reflexivity. Qed.

(** [get_signal] on a list that ends with two entries whose prices can be
    read. *)
Lemma get_signal_on_prices (w : World) (str_exn : exn -> string) (coin : string)
    (front : list json) (prev last price_last price_prev : json) :
  open_json w (data_path coin) = Ok (JList (front ++ [prev; last])) ->
  getitem last "price" = Ok price_last ->
  getitem prev "price" = Ok price_prev ->
  get_signal w str_exn coin
  = (match Py.sub price_last price_prev with
     | Ok change => Ok (signal_payload (signal_of change) (num_round change 4))
     | Raise e => Ok (error_payload (str_exn e))
     end,
     [OpenFile (data_path coin)]).
Proof.
  intros Hopen Hlast Hprev.
  unfold get_signal, get_signal_body.
  rewrite Hopen, bind_call_ok. cbn [len]. rewrite bind_lift_ok.
  destruct (Z.ltb_spec (Z.of_nat (List.length (front ++ [prev; last]))) 2)
    as [Hlt|_].
  { rewrite length_app in Hlt. simpl in Hlt. lia. }
  rewrite index_from_end_1, bind_lift_ok, Hlast, bind_lift_ok.
  rewrite index_from_end_2, bind_lift_ok, Hprev, bind_lift_ok.
  destruct (Py.sub price_last price_prev) as [change|e]; reflexivity.
Qed.

(** Only the last two entries of the price file count: two storage states
    whose price lists end with the same two entries get the same signal,
    or the same error. *)
Theorem get_signal_uses_last_two (w w' : World) (str_exn : exn -> string)
    (coin : string) (front front' : list json) (prev last : json) :
  open_json w (data_path coin) = Ok (JList (front ++ [prev; last])) ->
  open_json w' (data_path coin) = Ok (JList (front' ++ [prev; last])) ->
  get_signal w str_exn coin = get_signal w' str_exn coin.
Proof.
  intros Hopen Hopen'.
  unfold get_signal, get_signal_body.
  rewrite Hopen, Hopen', !bind_call_ok. cbn [len]. rewrite !bind_lift_ok.
  destruct (Z.ltb_spec (Z.of_nat (List.length (front ++ [prev; last]))) 2)
    as [Hlt|_].
  { rewrite length_app in Hlt. simpl in Hlt. lia. }
  destruct (Z.ltb_spec (Z.of_nat (List.length (front' ++ [prev; last]))) 2)
    as [Hlt|_].
  { rewrite length_app in Hlt. simpl in Hlt. lia. }
  rewrite !index_from_end_1, !index_from_end_2. reflexivity.
Qed.

(** Exchanging the last two prices exchanges "buy" and "sell" and keeps
    "hold", for prices that are float numbers (not infinite, not NaN). *)
Theorem get_signal_swap (w w' : World) (str_exn : exn -> string) (coin : string)
    (front front' : list json) (x y : json) (a b : F64.float) :
  open_json w (data_path coin) = Ok (JList (front ++ [x; y])) ->
  open_json w' (data_path coin) = Ok (JList (front' ++ [y; x])) ->
  getitem x "price" = Ok (JFloat a) ->
  getitem y "price" = Ok (JFloat b) ->
  Truth.is_number a = true ->
  Truth.is_number b = true ->
  exists payload payload' s,
    outcome (get_signal w str_exn coin) = Ok payload
    /\ outcome (get_signal w' str_exn coin) = Ok payload'
    /\ field "signal" payload = Some (JStr s)
    /\ field "signal" payload' = Some (JStr (Truth.flip s)).
Proof.
  intros Hopen Hopen' Hx Hy Ha Hb.
  rewrite (get_signal_on_prices w str_exn coin front x y _ _ Hopen Hy Hx).
  rewrite (get_signal_on_prices w' str_exn coin front' y x _ _ Hopen' Hx Hy).
  cbn [Py.sub as_num num_sub to_float rbind outcome fst].
  do 2 eexists. exists (signal_of (Float (F64.sub b a))).
  split; [reflexivity|]. split; [reflexivity|]. split; [reflexivity|].
  cbn [field signal_payload lookup String.eqb Ascii.eqb Bool.eqb].
  do 2 f_equal.
  destruct (sub_swap b a Hb Ha) as [[Hopp Hnan] | [Hz Hz']].
  - rewrite Hopp. apply signal_of_opp, Hnan.
  - rewrite (signal_of_zero _ Hz), (signal_of_zero _ Hz'). reflexivity.
Qed.

(** With integer prices the signal compares the two prices exactly: "hold"
    when they are equal, "buy" when the last one is higher, "sell" when it
    is lower; the change is reported as the exact difference. *)
Theorem get_signal_int_prices (w : World) (str_exn : exn -> string) (coin : string)
    (front : list json) (prev last : json) (a b : Z) :
  open_json w (data_path coin) = Ok (JList (front ++ [prev; last])) ->
  getitem last "price" = Ok (JInt a) ->
  getitem prev "price" = Ok (JInt b) ->
  exists s,
    outcome (get_signal w str_exn coin)
    = Ok (JDict [("signal", JStr s); ("change", JInt (a - b))])
    /\ (s = "hold" <-> a = b)
    /\ (s = "buy" <-> b < a)
    /\ (s = "sell" <-> a < b).
Proof.
  intros Hopen Hlast Hprev.
  rewrite (get_signal_on_prices w str_exn coin front prev last _ _ Hopen Hlast Hprev).
  exists (signal_of (Int (a - b))). split; [reflexivity|].
  unfold signal_of, num_abs, num_lt_int, num_gt_int.
  destruct (Z.ltb_spec (Z.abs (a - b)) 1) as [Habs|Habs].
  - repeat split; intros H; try discriminate; try reflexivity; lia.
  - destruct (Z.ltb_spec 0 (a - b)) as [Hpos|Hneg];
      repeat split; intros H; try discriminate; try reflexivity; lia.
Qed.

End SignalMore.

(** ** The endpoints that only read the price file *)

Section Readers.
Import Py Np Sys Truth.
Open Scope string_scope.

Variable w : World.
Variable str_exn : exn -> string.
Variable capitalize : string -> string.
Variable upper : string -> string.
Variable coin : string.

(** [get_signal], [debug_prices] and [local_coin_data] make one call, the
    read of the price file of the coin, whatever that file holds: they
    never touch the registry or the directory. *)
Theorem readers_make_one_call :
  trace (get_signal w str_exn coin) = [OpenFile (data_path coin)]
  /\ trace (debug_prices w str_exn coin) = [OpenFile (data_path coin)]
  /\ trace (local_coin_data w str_exn capitalize upper coin)
     = [OpenFile (data_path coin)].
Proof.
  unfold get_signal, debug_prices, local_coin_data.
  rewrite !trace_on_exception.
  unfold get_signal_body, debug_prices_body, local_coin_data_body.
  destruct (open_json w (data_path coin)) as [prices|e]; [|repeat split].
  rewrite !bind_call_ok. split; [|split].
  - destruct (len prices) as [n|e]; [|reflexivity].
    rewrite bind_lift_ok.
    destruct (n <? 2)%Z; [reflexivity|].
    destruct (index_from_end 1 prices) as [last_entry|e]; [|reflexivity].
    rewrite bind_lift_ok.
    destruct (getitem last_entry "price") as [last_price|e]; [|reflexivity].
    rewrite bind_lift_ok.
    destruct (index_from_end 2 prices) as [prev_entry|e]; [|reflexivity].
    rewrite bind_lift_ok.
    destruct (getitem prev_entry "price") as [prev_price|e]; [|reflexivity].
    rewrite bind_lift_ok.
    destruct (Py.sub last_price prev_price) as [change|e]; reflexivity.
  - destruct (iter prices) as [entries|e]; [|reflexivity].
    rewrite bind_lift_ok, rmap_clean_entry, bind_lift_ok. reflexivity.
  - destruct (negb (truthy prices)); [reflexivity|].
    destruct (index_from_end 1 prices) as [last_entry|e]; [|reflexivity].
    rewrite bind_lift_ok.
    destruct (getitem last_entry "price") as [last|e]; reflexivity.
Qed.

Lemma lastn_snoc {A : Type} (n : nat) (l : list A) (x : A) :
  lastn (S n) (l ++ [x]) = (lastn n l ++ [x])%list.
Proof.
  unfold lastn. rewrite length_app, skipn_app. simpl List.length.
  replace (List.length l + 1 - S n)%nat with (List.length l - n)%nat by lia.
  replace (List.length l - n - List.length l)%nat with 0%nat by lia.
  reflexivity.
Qed.

Lemma index_from_end_last (front : list json) (last : json) :
  index_from_end 1 (JList (front ++ [last])) = Ok last.
Proof. unfold index_from_end. rewrite rev_app_distr. reflexivity. Qed.

(** For a price list whose last entry is a record, [local_coin_data]
    reports the price of that entry as it is stored, neither converted nor
    rounded, and it is the last value that [debug_prices] shows.  One point
    is enough for it, where [get_signal] asks for two. *)
Theorem local_coin_data_reports_last_price (front : list json) (last price : json) :
  open_json w (data_path coin) = Ok (JList (front ++ [last])) ->
  getitem last "price" = Ok price ->
  local_coin_data w str_exn capitalize upper coin
  = (Ok (coin_summary capitalize upper coin price), [OpenFile (data_path coin)])
  /\ field "price" (coin_summary capitalize upper coin price) = Some price
  /\ (exists shown,
        outcome (debug_prices w str_exn coin)
        = Ok (JDict [("coin", JStr coin);
                     ("last_60_prices", JList (shown ++ [price])%list)]))
  /\ (front = [] ->
      outcome (get_signal w str_exn coin) = Ok (error_payload "Not enough data")).
Proof.
  intros Hopen Hprice. split; [|split; [reflexivity|split]].
  - unfold local_coin_data, local_coin_data_body.
    rewrite Hopen, bind_call_ok.
    assert (Htrue : truthy (JList (front ++ [last])) = true)
      by (destruct front; reflexivity).
    rewrite Htrue. cbn [negb].
    rewrite index_from_end_last, bind_lift_ok, Hprice, bind_lift_ok. reflexivity.
  - exists (lastn 59 (map clean front)).
    unfold debug_prices, debug_prices_body.
    rewrite Hopen, bind_call_ok. cbn [iter]. rewrite bind_lift_ok.
    rewrite rmap_clean_entry, bind_lift_ok, map_app. cbn [map].
    rewrite lastn_snoc.
    assert (Hclean : clean last = price).
    { destruct last; try discriminate. simpl in *.
      destruct (lookup "price" items); congruence. }
    rewrite Hclean. reflexivity.
  - intros ->. unfold get_signal, get_signal_body.
    rewrite Hopen, bind_call_ok. reflexivity.
Qed.


Lemma rmap_all_raise {A B : Type} (f : A -> result B) (e : exn) (l : list A) :
  l <> [] -> (forall a, In a l -> f a = Raise e) -> rmap f l = Raise e.
Proof.
  intros Hne Hall. apply rmap_raises.
  - intros a Ha. left. apply Hall, Ha.
  - destruct l as [|a l]; [congruence|]. exists a. split; [left; reflexivity|].
    apply Hall. left. reflexivity.
Qed.

Lemma clean_not_dict (l : list json) :
  Forall (fun entry => is_dict entry = false) l -> map clean l = l.
Proof.
  induction 1 as [|entry l Hentry _ IH]; simpl; [reflexivity|].
  rewrite IH. f_equal. destruct entry; try reflexivity. discriminate.
Qed.

Lemma lastn_In {A : Type} (n : nat) (l : list A) (x : A) :
  In x (lastn n l) -> In x l.
Proof.
  intros H. rewrite <- (firstn_skipn (List.length l - n) l).
  apply in_or_app. right. exact H.
Qed.

(** A price list of at least 60 entries none of which is a record (bare
    numbers, say) is shown by [debug_prices] as it is, while [predict],
    [get_signal] and [local_coin_data] answer with the [TypeError] of the
    subscript, [predict] before loading any artifact. *)
Theorem bare_entries_only_debug (l : list json) :
  open_json w (data_path coin) = Ok (JList l) ->
  (60 <= List.length l)%nat ->
  Forall (fun entry => is_dict entry = false) l ->
  outcome (debug_prices w str_exn coin)
  = Ok (JDict [("coin", JStr coin); ("last_60_prices", JList (lastn 60 l))])
  /\ predict w str_exn coin
     = (Ok (error_payload (str_exn TypeError)), [OpenFile (data_path coin)])
  /\ outcome (get_signal w str_exn coin) = Ok (error_payload (str_exn TypeError))
  /\ outcome (local_coin_data w str_exn capitalize upper coin)
     = Ok (error_payload (str_exn TypeError)).
Proof.
  intros Hopen Hl Hbare.
  assert (Hget : forall entry, In entry l -> getitem entry "price" = Raise TypeError).
  { intros entry Hin. rewrite Forall_forall in Hbare. specialize (Hbare entry Hin).
    destruct entry; try reflexivity. discriminate. }
  destruct (exists_last (l := l)) as (front & last & ->).
  { intros ->. simpl in Hl. lia. }
  assert (Hlast : getitem last "price" = Raise TypeError).
  { apply Hget, in_or_app. right. left. reflexivity. }
  split; [|split; [|split]].
  - unfold debug_prices, debug_prices_body.
    rewrite Hopen, bind_call_ok. cbn [iter]. rewrite bind_lift_ok.
    rewrite rmap_clean_entry, bind_lift_ok, (clean_not_dict _ Hbare). reflexivity.
  - unfold predict, predict_body.
    rewrite Hopen, bind_call_ok. cbn [len]. rewrite bind_lift_ok.
    destruct (Z.ltb_spec (Z.of_nat (List.length (front ++ [last]))) 60) as [Hlt|_];
      [lia|].
    cbn [iter_last]. rewrite bind_lift_ok.
    rewrite (rmap_all_raise (fun entry => getitem entry "price") TypeError).
    + reflexivity.
    + intros Hnil.
      pose proof (lastn_length 60 (front ++ [last])) as Hn.
      rewrite Hnil in Hn. simpl in Hn. lia.
    + intros entry Hin. apply Hget, (lastn_In 60), Hin.
  - unfold get_signal, get_signal_body.
    rewrite Hopen, bind_call_ok. cbn [len]. rewrite bind_lift_ok.
    destruct (Z.ltb_spec (Z.of_nat (List.length (front ++ [last]))) 2) as [Hlt|_];
      [lia|].
    rewrite index_from_end_last, bind_lift_ok, Hlast. reflexivity.
  - unfold local_coin_data, local_coin_data_body.
    rewrite Hopen, bind_call_ok.
    assert (Htrue : truthy (JList (front ++ [last])) = true)
      by (destruct front; reflexivity).
    rewrite Htrue. cbn [negb].
    rewrite index_from_end_last, bind_lift_ok, Hlast. reflexivity.
Qed.

End Readers.

(** ** More on [available_coins] *)

Section ListingMore.
Import Py Np Sys.
Open Scope string_scope.

Variable w : World.
Variable str_exn : exn -> string.

(** A price file whose stem has no dot is listed under its stem, whatever
    else the directory holds, and the listed symbol addresses that file:
    it is the file that the other endpoints open for the symbol. *)
Theorem available_coins_lists_plain_files (files : list string) (stem : string) :
  listdir w "data" = Ok files ->
  In (file_name stem) files ->
  dot_free stem = true ->
  exists coins,
    available_coins w str_exn
    = (Ok (JDict [("coins", JList (map JStr coins))]), [ListDir "data"])
    /\ In stem coins
    /\ data_path stem = "data/" ++ file_name stem.
Proof.
  intros Hdir Hin Hplain.
  exists (map (fun f => replace f ".json" "")
              (filter (fun f => endswith f ".json") files)).
  split; [|split; [|reflexivity]].
  - unfold available_coins, available_coins_body.
    rewrite Hdir, bind_call_ok. reflexivity.
  - apply in_map_iff. exists (file_name stem). split.
    + apply replace_stem, Hplain.
    + apply filter_In. split; [exact Hin|]. apply endswith_append.
Qed.

(** The listing makes one call, the listing of [data], and depends on
    nothing else: two storage states with the same [data] directory get
    the same listing, whatever their price files and artifacts are; a
    directory that cannot be listed gives an error payload. *)
Theorem available_coins_reads_directory_only :
  trace (available_coins w str_exn) = [ListDir "data"]
  /\ (forall w', listdir w "data" = listdir w' "data" ->
        available_coins w str_exn = available_coins w' str_exn)
  /\ (forall e, listdir w "data" = Raise e ->
        outcome (available_coins w str_exn) = Ok (error_payload (str_exn e))).
Proof.
  split; [|split].
  - unfold available_coins, available_coins_body.
    destruct (listdir w "data") as [files|e]; reflexivity.
  - intros w' H. unfold available_coins, available_coins_body.
    rewrite H. reflexivity.
  - intros e H. unfold available_coins, available_coins_body.
    rewrite H. reflexivity.
Qed.

End ListingMore.

(** ** The proxies *)

Section ProxyFacts.
Import Py Sys Truth Http.
Open Scope string_scope.

Variable net : Net.
Variable w : World.
Variable str_exn : exn -> string.
Variable print : string -> result unit.
Variable render : json -> result unit.

(** [get_coin_data] never raises.  It passes the decoded body on when the
    status is 200; with any other status it answers with an error that
    names the coin and does not look at the body; an exception of the
    request or of the decoding comes back as [{"error": str(e)}]. *)
Theorem get_coin_data_reply (coin : string) :
  exists payload,
    get_coin_data net str_exn coin = Ok payload
    /\ (forall e, get net (coin_url coin) [] None = Raise e ->
        payload = error_payload (str_exn e))
    /\ (forall response,
          get net (coin_url coin) [] None = Ok response ->
          (status_code response <> 200 ->
           payload = error_payload
                       ("Failed to fetch coin data from CoinGecko for '"
                        ++ coin ++ "'"))
          /\ (status_code response = 200 ->
              (forall body, body_json response = Ok body -> payload = body)
              /\ (forall e, body_json response = Raise e ->
                  payload = error_payload (str_exn e)))).
Proof.
  unfold get_coin_data.
  destruct (get net (coin_url coin) [] None) as [response|e] eqn:Hget; simpl.
  - destruct (Z.eqb_spec (status_code response) 200) as [H200|Hnot]; simpl.
    + destruct (body_json response) as [body|e] eqn:Hbody; simpl.
      * exists body. split; [reflexivity|]. split; [discriminate|].
        intros r Hr. injection Hr as <-. split; [congruence|].
        intros _. rewrite Hbody. split; congruence.
      * exists (error_payload (str_exn e)). split; [reflexivity|].
        split; [discriminate|].
        intros r Hr. injection Hr as <-. split; [congruence|].
        intros _. rewrite Hbody. split; congruence.
    + eexists. split; [reflexivity|]. split; [discriminate|].
      intros r Hr. injection Hr as <-. split; [reflexivity|congruence].
  - exists (error_payload (str_exn e)). split; [reflexivity|].
    split; [congruence|discriminate].
Qed.

(** The second [get_top_coins] always answers with status 200 and a JSON
    array, as its comments ask: the list of the market service, or the
    empty list on any failure, be it of the request, of the decoding, of
    the format or of the rendering.  This needs a standard output that
    takes the log lines and an empty list that renders. *)
Theorem get_top_coins_always_array :
  (forall line, print line = Ok tt) ->
  render (JList []) = Ok tt ->
  exists l,
    get_top_coins net str_exn print render = Ok (JSONResponse 200 (JList l))
    /\ (l = [] \/ remote_list net None = Some l).
Proof.
  intros Hprint Hrender.
  unfold get_top_coins, remote_list, json_response.
  destruct (get net markets_url markets_params None) as [response|e]; simpl.
  - destruct (body_json response) as [data|e]; simpl.
    + destruct data as [ | | | | |l| ]; simpl;
        try (rewrite Hprint; simpl; rewrite Hrender; simpl;
             exists []; split; [reflexivity|left; reflexivity]).
      rewrite Hprint. simpl.
      destruct (render (JList l)) as [[]|e]; simpl.
      * exists l. split; [reflexivity|right; reflexivity].
      * rewrite Hprint. simpl. rewrite Hrender. simpl.
        exists []. split; [reflexivity|left; reflexivity].
    + rewrite Hprint. simpl. rewrite Hrender. simpl.
      exists []. split; [reflexivity|left; reflexivity].
  - rewrite Hprint. simpl. rewrite Hrender. simpl.
    exists []. split; [reflexivity|left; reflexivity].
Qed.

(** When the market service answers with a JSON array, the first
    [get_top_coins] returns it as it is, whatever the status code of the
    answer and whatever the storage holds: the fallback file is not
    needed. *)
Theorem get_top_coins_remote_first (l : list json) :
  (forall line, print line = Ok tt) ->
  remote_list net (Some 5) = Some l ->
  forall w' : World,
    get_top_coins_with_fallback net w' str_exn print render = Ok (Plain (JList l)).
Proof.
  intros Hprint Hremote w'.
  unfold get_top_coins_with_fallback, remote_list in *.
  destruct (get net markets_url markets_params (Some 5)) as [response|e];
    [|discriminate].
  simpl. destruct (body_json response) as [data|e]; [|discriminate].
  destruct data; try discriminate. injection Hremote as ->.
  simpl. rewrite Hprint. reflexivity.
Qed.

(** When the market service gives no JSON array (the request fails, the
    body is no JSON or is not an array), the first [get_top_coins] answers
    with the content of [data/markets.json] as it is, array or not; if that
    file cannot be read either, it answers with status 500 and the error
    of the file. *)
Theorem get_top_coins_fallback :
  (forall line, print line = Ok tt) ->
  remote_list net (Some 5) = None ->
  (forall content,
      open_json w "data/markets.json" = Ok content ->
      get_top_coins_with_fallback net w str_exn print render = Ok (Plain content))
  /\ (forall e,
        open_json w "data/markets.json" = Raise e ->
        render (error_payload (str_exn e)) = Ok tt ->
        get_top_coins_with_fallback net w str_exn print render
        = Ok (JSONResponse 500 (error_payload (str_exn e)))).
Proof.
  intros Hprint Hremote.
  assert (Hbody :
    exists e,
      rbind (get net markets_url markets_params (Some 5))
        (fun response =>
           rbind (body_json response)
             (fun data =>
                if is_list data
                then rbind (print ("[INFO] ✅ Loaded " ++ count data
                                   ++ " coins from CoinGecko"))
                           (fun _ => Ok (Plain data))
                else Raise ValueError))
      = Raise e).
  { unfold remote_list in Hremote.
    destruct (get net markets_url markets_params (Some 5)) as [response|e]; simpl;
      [|eexists; reflexivity].
    destruct (body_json response) as [data|e]; simpl; [|eexists; reflexivity].
    destruct data; try discriminate; eexists; reflexivity. }
  destruct Hbody as (e0 & Hbody).
  unfold get_top_coins_with_fallback. rewrite Hbody. simpl. rewrite Hprint. simpl.
  split.
  - intros content Hopen. rewrite Hopen. reflexivity.
  - intros e Hopen Hrender. rewrite Hopen. simpl. rewrite Hprint. simpl.
    unfold json_response. rewrite Hrender. reflexivity.
Qed.

End ProxyFacts.

(** ** The properties above on test data *)

Section MoreWitnesses.
Import Py Np Sys Truth Http.
Open Scope string_scope.

Lemma flat_world_answers (last_price predicted_price : F64.float) :
  model_answers (Fixture.flat_world last_price predicted_price) "btc"
                (repeat [last_price] 60) Fixture.identity_scaler
                (mk_ndarray [1; 1]%nat [predicted_price]).
Proof. eapply model_answers_intro; by_evaluation. Qed.

Lemma predict_missing_price_witness :
  predict (Fixture.coin_world
             (JList (JDict [("volume", JInt 1)]
                     :: repeat (JDict [("price", JInt 7)]) 59))
             Fixture.identity_scaler (Fixture.constant_model F64.one))
          Fixture.str_exn "btc"
  = (Ok (error_payload "KeyError"), [OpenFile (data_path "btc")]).
Proof.
  apply (predict_missing_price
           (Fixture.coin_world
              (JList (JDict [("volume", JInt 1)]
                      :: repeat (JDict [("price", JInt 7)]) 59))
              Fixture.identity_scaler (Fixture.constant_model F64.one))
           Fixture.str_exn "btc"
           (JDict [("volume", JInt 1)] :: repeat (JDict [("price", JInt 7)]) 59)
           [("volume", JInt 1)]).
  - reflexivity.
  - apply Nat.leb_le. reflexivity.
  - repeat constructor.
  - left. reflexivity.
  - reflexivity.
Defined.

Lemma predict_nan_is_down_witness :
  predict (Fixture.flat_world (F64.of_Z 100) S754_nan) Fixture.str_exn "btc"
  = (Ok (JDict [("prediction", JStr "down");
                ("confidence", JFloat S754_nan);
                ("predicted_price", JFloat S754_nan);
                ("last_price", JFloat (F64.py_round (F64.of_Z 100) 2))]),
     full_trace "btc").
Proof.
  apply (predict_nan_is_down
           (Fixture.flat_world (F64.of_Z 100) S754_nan) Fixture.str_exn "btc"
           (F64.of_Z 100)).
  apply flat_world_runs.
Defined.

Lemma predict_no_change_witness :
  exists payload c,
    outcome (predict (Fixture.flat_world (F64.of_Z (-3)) (F64.of_Z (-3)))
                     Fixture.str_exn "btc") = Ok payload
    /\ field "prediction" payload = Some (JStr "down")
    /\ field "confidence" payload = Some (JFloat c)
    /\ F64.is_zero c = true.
Proof.
  apply (predict_no_change
           (Fixture.flat_world (F64.of_Z (-3)) (F64.of_Z (-3))) Fixture.str_exn "btc"
           (F64.of_Z (-3))).
  - apply flat_world_runs.
  - reflexivity.
Defined.

Lemma debug_prices_shows_the_window_witness :
  exists out,
    outcome (debug_prices (Fixture.flat_world (F64.of_Z 100) (F64.of_Z 105))
                          Fixture.str_exn "btc")
    = Ok (JDict [("coin", JStr "btc"); ("last_60_prices", JList out)])
    /\ List.length out = 60%nat
    /\ column out = Ok (repeat [F64.of_Z 100] 60).
Proof.
  apply (debug_prices_shows_the_window
           (Fixture.flat_world (F64.of_Z 100) (F64.of_Z 105)) Fixture.str_exn "btc"
           (repeat [F64.of_Z 100] 60) Fixture.identity_scaler
           (mk_ndarray [1; 1]%nat [F64.of_Z 105])).
  apply flat_world_answers.
Defined.


Lemma get_signal_uses_last_two_witness :
  get_signal (Fixture.series_world [JInt 1; JInt 5; JInt 9]) Fixture.str_exn "btc"
  = get_signal (Fixture.series_world [JInt 5; JInt 9]) Fixture.str_exn "btc".
Proof.
  apply (get_signal_uses_last_two
           (Fixture.series_world [JInt 1; JInt 5; JInt 9])
           (Fixture.series_world [JInt 5; JInt 9]) Fixture.str_exn "btc"
           [JDict [("price", JInt 1)]] []
           (JDict [("price", JInt 5)]) (JDict [("price", JInt 9)])).
  - reflexivity.
  - reflexivity.
Defined.

Lemma get_signal_swap_witness :
  exists payload payload' s,
    outcome (get_signal (Fixture.series_world [JFloat (F64.of_Z 100);
                                               JFloat (F64.of_Z 105)])
                        Fixture.str_exn "btc") = Ok payload
    /\ outcome (get_signal (Fixture.series_world [JFloat (F64.of_Z 105);
                                                  JFloat (F64.of_Z 100)])
                           Fixture.str_exn "btc") = Ok payload'
    /\ field "signal" payload = Some (JStr s)
    /\ field "signal" payload' = Some (JStr (flip s)).
Proof.
  apply (get_signal_swap
           (Fixture.series_world [JFloat (F64.of_Z 100); JFloat (F64.of_Z 105)])
           (Fixture.series_world [JFloat (F64.of_Z 105); JFloat (F64.of_Z 100)])
           Fixture.str_exn "btc" [] []
           (JDict [("price", JFloat (F64.of_Z 100))])
           (JDict [("price", JFloat (F64.of_Z 105))])
           (F64.of_Z 100) (F64.of_Z 105)).
  - reflexivity.
  - reflexivity.
  - reflexivity.
  - reflexivity.
  - reflexivity.
  - reflexivity.
Defined.

Lemma get_signal_int_prices_witness :
  exists s,
    outcome (get_signal (Fixture.series_world [JInt 9007199254740992;
                                               JInt 9007199254740993])
                        Fixture.str_exn "btc")
    = Ok (JDict [("signal", JStr s);
                 ("change", JInt (9007199254740993 - 9007199254740992))])
    /\ (s = "hold" <-> 9007199254740993 = 9007199254740992)
    /\ (s = "buy" <-> 9007199254740992 < 9007199254740993)
    /\ (s = "sell" <-> 9007199254740993 < 9007199254740992).
Proof.
  apply (get_signal_int_prices
           (Fixture.series_world [JInt 9007199254740992; JInt 9007199254740993])
           Fixture.str_exn "btc" []
           (JDict [("price", JInt 9007199254740992)])
           (JDict [("price", JInt 9007199254740993)])
           9007199254740993 9007199254740992).
  - reflexivity.
  - reflexivity.
  - reflexivity.
Defined.

Lemma bare_entries_only_debug_witness :
  outcome (debug_prices
             (Fixture.coin_world (JList (repeat (JInt 7) 60))
                Fixture.identity_scaler (Fixture.constant_model F64.one))
             Fixture.str_exn "btc")
  = Ok (JDict [("coin", JStr "btc");
               ("last_60_prices", JList (lastn 60 (repeat (JInt 7) 60)))])
  /\ predict (Fixture.coin_world (JList (repeat (JInt 7) 60))
                Fixture.identity_scaler (Fixture.constant_model F64.one))
             Fixture.str_exn "btc"
     = (Ok (error_payload "TypeError"), [OpenFile (data_path "btc")])
  /\ outcome (get_signal
                (Fixture.coin_world (JList (repeat (JInt 7) 60))
                   Fixture.identity_scaler (Fixture.constant_model F64.one))
                Fixture.str_exn "btc")
     = Ok (error_payload "TypeError")
  /\ outcome (local_coin_data
                (Fixture.coin_world (JList (repeat (JInt 7) 60))
                   Fixture.identity_scaler (Fixture.constant_model F64.one))
                Fixture.str_exn Fixture2.capitalize Fixture2.upper "btc")
     = Ok (error_payload "TypeError").
Proof.
  apply (bare_entries_only_debug
           (Fixture.coin_world (JList (repeat (JInt 7) 60))
              Fixture.identity_scaler (Fixture.constant_model F64.one))
           Fixture.str_exn Fixture2.capitalize Fixture2.upper "btc"
           (repeat (JInt 7) 60)).
  - reflexivity.
  - apply Nat.leb_le. reflexivity.
  - repeat constructor.
Defined.

Lemma available_coins_lists_plain_files_witness :
  exists coins,
    available_coins
      (Fixture.directory_world ["a.json.json"; "bitcoin.json"; "notes.txt"])
      Fixture.str_exn
    = (Ok (JDict [("coins", JList (map JStr coins))]), [ListDir "data"])
    /\ In "bitcoin" coins
    /\ data_path "bitcoin" = "data/" ++ file_name "bitcoin".
Proof.
  apply (available_coins_lists_plain_files
           (Fixture.directory_world ["a.json.json"; "bitcoin.json"; "notes.txt"])
           Fixture.str_exn
           ["a.json.json"; "bitcoin.json"; "notes.txt"] "bitcoin").
  - reflexivity.
  - right. left. reflexivity.
  - reflexivity.
Defined.

Lemma local_coin_data_reports_last_price_witness :
  local_coin_data (Fixture.series_world [JStr "n/a"]) Fixture.str_exn
                  Fixture2.capitalize Fixture2.upper "btc"
  = (Ok (JDict [("name", JStr "Btc"); ("symbol", JStr "BTC");
                ("price", JStr "n/a"); ("market_cap", JInt 0);
                ("volume", JInt 0); ("circulating_supply", JInt 0);
                ("total_supply", JInt 0);
                ("homepage", JStr "https://example.com")]),
     [OpenFile (data_path "btc")])
  /\ outcome (get_signal (Fixture.series_world [JStr "n/a"]) Fixture.str_exn "btc")
     = Ok (error_payload "Not enough data").
Proof.
  destruct (local_coin_data_reports_last_price
              (Fixture.series_world [JStr "n/a"]) Fixture.str_exn
              Fixture2.capitalize Fixture2.upper "btc"
              [] (JDict [("price", JStr "n/a")]) (JStr "n/a")
              eq_refl eq_refl)
    as (Hlocal & _ & _ & Hsignal).
  split; [exact Hlocal|exact (Hsignal eq_refl)].
Defined.


Lemma get_top_coins_always_array_witness :
  exists l,
    get_top_coins
      (Fixture2.online (mk_response 429 (Ok (JDict [("status", JStr "busy")]))))
      Fixture.str_exn Fixture2.print Fixture2.render
    = Ok (JSONResponse 200 (JList l))
    /\ (l = []
        \/ remote_list
             (Fixture2.online
                (mk_response 429 (Ok (JDict [("status", JStr "busy")]))))
             None = Some l).
Proof.
  apply (get_top_coins_always_array
           (Fixture2.online (mk_response 429 (Ok (JDict [("status", JStr "busy")]))))
           Fixture.str_exn Fixture2.print Fixture2.render).
  - intros line. reflexivity.
  - reflexivity.
Defined.

Lemma get_top_coins_remote_first_witness :
  get_top_coins_with_fallback
    (Fixture2.online (mk_response 500 (Ok (JList [JStr "bitcoin"]))))
    (Fixture.directory_world []) Fixture.str_exn Fixture2.print Fixture2.render
  = Ok (Plain (JList [JStr "bitcoin"])).
Proof.
  apply (get_top_coins_remote_first
           (Fixture2.online (mk_response 500 (Ok (JList [JStr "bitcoin"]))))
           Fixture.str_exn Fixture2.print Fixture2.render [JStr "bitcoin"]).
  - intros line. reflexivity.
  - reflexivity.
Defined.

Lemma get_top_coins_fallback_witness :
  get_top_coins_with_fallback Fixture2.offline
    (Fixture2.data_world [("markets.json", JDict [("cached", JBool true)])])
    Fixture.str_exn Fixture2.print Fixture2.render
  = Ok (Plain (JDict [("cached", JBool true)]))
  /\ get_top_coins_with_fallback Fixture2.offline
       (Fixture2.data_world []) Fixture.str_exn Fixture2.print Fixture2.render
     = Ok (JSONResponse 500 (error_payload "FileNotFoundError")).
Proof.
  split.
  - apply (proj1 (get_top_coins_fallback Fixture2.offline
                    (Fixture2.data_world
                       [("markets.json", JDict [("cached", JBool true)])])
                    Fixture.str_exn Fixture2.print Fixture2.render
                    (fun line => eq_refl) eq_refl)).
    reflexivity.
  - apply (proj2 (get_top_coins_fallback Fixture2.offline
                    (Fixture2.data_world []) Fixture.str_exn
                    Fixture2.print Fixture2.render
                    (fun line => eq_refl) eq_refl)
                 (External "FileNotFoundError")).
    + reflexivity.
    + reflexivity.
Defined.

(** The listing shows the fallback file of the market proxy as a coin. *)
Example listing_with_markets :
  outcome (available_coins
             (Fixture2.data_world [("bitcoin.json", JList []);
                                   ("markets.json", JList [])])
             Fixture.str_exn)
  = Ok (JDict [("coins", JList [JStr "bitcoin"; JStr "markets"])]).
Proof. vm_compute. reflexivity. Qed.

End MoreWitnesses.
